(** * angular-easy-test: the structural conformance checker

    A shallow embedding of [src/lib/easy-test.js]: [EasyTest.looksLike] and
    its three adapters [testScope], [testController] and [testService],
    together with the fragment of the ECMAScript object model they run on.

    - Module [JS] is the language layer: values, a heap of objects with
      prototype links, and the operators and built-ins the source uses
      ([in], member access, [typeof], [Object.getOwnPropertyNames],
      [String.prototype.split], [new Error]).
    - Module [EasyTest] is the program, statement by statement.
    - Module [Scenarios] holds concrete heaps on which the program is run.
    - Module [Mocking] is [EasyTest.mockModules] over the framework's
      [angular.mock.module]; module [Verdicts] names what a verdict says of
      the subject.
    - The remaining sections state and prove the properties of the checker,
      of its adapters and of [mockModules].

    Scope of the language layer.  Objects are ordinary objects whose
    string-keyed properties are listed in the order in which the engine
    enumerates own property names.  In module [JS] they are data
    properties; module [Getters] adds accessor properties, whose getters
    run during member access, and carries [looksLike] over to them.
    Proxies are not represented.  A step that would run code the model does
    not contain (a user-defined [split], a conversion of a non-string
    receiver) or that reads a heap no engine can build (a dangling
    reference, a cyclic prototype chain) ends in [Unmodelled].  The arrays
    built by [getOwnPropertyNames] and [split] never escape [looksLike] and
    are kept as lists; the [Error] object it returns is allocated in the
    heap.  Strings are sequences of 8-bit characters. *)

From Stdlib Require Import Floats.PrimFloat Uint63 Ascii DecimalString.
From stdpp Require Import base strings gmap list.

(* ================================================================= *)
(** ** The language layer *)
(* ================================================================= *)

Module JS.

Abbreviation loc := positive.

(** Language values; a number is an IEEE 754 binary64. *)
Inductive value : Type :=
| VUndefined
| VNull
| VBoolean (b : bool)
| VNumber (n : float)
| VBigInt (z : Z)
| VString (s : string)
| VSymbol (id : positive)
| VObject (l : loc).

(** An object: whether it is callable, its own string-keyed data properties
    in enumeration order, and its prototype link ([None] is [null]). *)
Record object : Type := Object {
  callable : bool;
  properties : list (string * value);
  prototype : option loc
}.

Abbreviation heap := (gmap loc object).

(** The intrinsic objects of the realm the code runs in. *)
Record realm : Type := Realm {
  Boolean_prototype : loc;
  Number_prototype : loc;
  BigInt_prototype : loc;
  String_prototype : loc;
  Symbol_prototype : loc;
  Error_prototype : loc;
  String_prototype_split : loc
}.

Inductive exn : Type :=
| TypeError
| Thrown (v : value).

(** How an evaluation ends: normally, by an exception, or outside the model. *)
Inductive completion (A : Type) : Type :=
| Normal (a : A)
| Throw (e : exn)
| Unmodelled.

Arguments Normal {A} a.
Arguments Throw {A} e.
Arguments Unmodelled {A}.

#[export] Instance completion_ret : MRet completion := @Normal.

#[export] Instance completion_bind : MBind completion :=
  λ A B f c,
    match c with
    | Normal a => f a
    | Throw e => Throw e
    | Unmodelled => Unmodelled
    end.

(** *** Strings *)

(** [s.split(sep)] for a separator of one character: the pieces between
    the occurrences of [sep], empty pieces included. *)
Fixpoint split (sep : ascii) (s : string) : list string :=
  match s with
  | EmptyString => [EmptyString]
  | String c s' =>
      if Ascii.eqb c sep then EmptyString :: split sep s'
      else match split sep s' with
           | piece :: pieces => String c piece :: pieces
           | [] => [String c EmptyString]
           end
  end.

Definition index_name (i : nat) : string :=
  NilEmpty.string_of_uint (Nat.to_uint i).

(** The index a property name denotes, when it is a canonical numeral. *)
Definition canonical_index (p : string) : option nat :=
  match NilEmpty.uint_of_string p with
  | Some d =>
      let i := Nat.of_uint d in
      if String.eqb (index_name i) p then Some i else None
  | None => None
  end.

Definition number_of_nat (n : nat) : float :=
  PrimFloat.of_uint63 (Uint63.of_Z (Z.of_nat n)).

(** Own properties of a string: its characters and its length. *)
Definition string_own_property (s p : string) : option value :=
  if String.eqb p "length" then Some (VNumber (number_of_nat (String.length s)))
  else match canonical_index p with
       | Some i =>
           match String.get i s with
           | Some c => Some (VString (String c EmptyString))
           | None => None
           end
       | None => None
       end.

Definition string_own_names (s : string) : list string :=
  map index_name (seq 0 (String.length s)) ++ ["length"%string].

(** *** Reading the heap *)

Definition deref (l : loc) (h : heap) : completion object :=
  match h !! l with
  | Some o => Normal o
  | None => Unmodelled
  end.

Fixpoint assoc (p : string) (ps : list (string * value)) : option value :=
  match ps with
  | [] => None
  | (q, v) :: ps' => if String.eqb q p then Some v else assoc p ps'
  end.

(** The property [p] as found from [l] along the prototype chain. *)
Fixpoint lookup_chain (fuel : nat) (l : loc) (p : string) (h : heap)
  : completion (option value) :=
  match fuel with
  | O => Unmodelled
  | S fuel' =>
      o ← deref l h;
      match assoc p (properties o) with
      | Some v => Normal (Some v)
      | None =>
          match prototype o with
          | Some parent => lookup_chain fuel' parent p h
          | None => Normal None
          end
      end
  end.

(** A chain without a cycle visits each object of the heap at most once. *)
Definition GetProperty (l : loc) (p : string) (h : heap)
  : completion (option value) :=
  lookup_chain (size h) l p h.

Definition HasProperty (l : loc) (p : string) (h : heap) : completion bool :=
  r ← GetProperty l p h;
  Normal (match r with Some _ => true | None => false end).

Definition Get (l : loc) (p : string) (h : heap) : completion value :=
  r ← GetProperty l p h;
  Normal (match r with Some v => v | None => VUndefined end).

(** *** Operators and built-ins *)

(** [p in v] *)
Definition op_in (p : string) (v : value) (h : heap) : completion bool :=
  match v with
  | VObject l => HasProperty l p h
  | _ => Throw TypeError
  end.

(** [v[p]], also written [v.p] *)
Definition GetV (R : realm) (v : value) (p : string) (h : heap)
  : completion value :=
  match v with
  | VUndefined | VNull => Throw TypeError
  | VBoolean _ => Get (Boolean_prototype R) p h
  | VNumber _ => Get (Number_prototype R) p h
  | VBigInt _ => Get (BigInt_prototype R) p h
  | VString s =>
      match string_own_property s p with
      | Some x => Normal x
      | None => Get (String_prototype R) p h
      end
  | VSymbol _ => Get (Symbol_prototype R) p h
  | VObject l => Get l p h
  end.

(** [typeof v] *)
Definition typeof (v : value) (h : heap) : completion string :=
  match v with
  | VUndefined => Normal "undefined"%string
  | VNull => Normal "object"%string
  | VBoolean _ => Normal "boolean"%string
  | VNumber _ => Normal "number"%string
  | VBigInt _ => Normal "bigint"%string
  | VString _ => Normal "string"%string
  | VSymbol _ => Normal "symbol"%string
  | VObject l =>
      o ← deref l h;
      Normal (if callable o then "function" else "object")%string
  end.

(** [Object.getOwnPropertyNames(v)] *)
Definition getOwnPropertyNames (v : value) (h : heap)
  : completion (list string) :=
  match v with
  | VUndefined | VNull => Throw TypeError
  | VString s => Normal (string_own_names s)
  | VObject l => o ← deref l h; Normal (map fst (properties o))
  | VBoolean _ | VNumber _ | VBigInt _ | VSymbol _ => Normal []
  end.

(** [v.split(sep)]: the method is looked up on [v] and called on it.  Only
    the intrinsic [String.prototype.split] on a string receiver is run. *)
Definition call_split (R : realm) (v : value) (sep : ascii) (h : heap)
  : completion (list string) :=
  f ← GetV R v "split" h;
  match f with
  | VObject lf =>
      if decide (lf = String_prototype_split R) then
        match v with
        | VString s => Normal (split sep s)
        | _ => Unmodelled
        end
      else
        o ← deref lf h;
        if callable o then Unmodelled else Throw TypeError
  | _ => Throw TypeError
  end.

(** *** Computations that may allocate *)

Definition M (A : Type) : Type := heap → completion A * heap.

Definition ret {A : Type} (a : A) : M A := λ h, (Normal a, h).

Definition bind {A B : Type} (m : M A) (f : A → M B) : M B :=
  λ h,
    match m h with
    | (Normal a, h') => f a h'
    | (Throw e, h') => (Throw e, h')
    | (Unmodelled, h') => (Unmodelled, h')
    end.

(** A step that only reads the heap. *)
Definition read {A : Type} (r : heap → completion A) : M A := λ h, (r h, h).

Definition alloc (o : object) : M loc :=
  λ h, let l := fresh (dom h) in (Normal l, <[l := o]> h).

Definition Error_object (R : realm) (message : string) : object :=
  {| callable := false;
     properties := [("message"%string, VString message)];
     prototype := Some (Error_prototype R) |}.

(** [new Error(message)] *)
Definition new_Error (R : realm) (message : string) : M value :=
  bind (alloc (Error_object R message)) (λ l, ret (VObject l)).

End JS.

Declare Scope js_scope.
Delimit Scope js_scope with js.
Notation "x <- m ;; k" := (JS.bind m (λ x, k))
  (at level 100, m at next level, right associativity) : js_scope.

(* ================================================================= *)
(** ** The program *)
(* ================================================================= *)

Module EasyTest.
Import JS.

Section EasyTest.

Context (R : realm).

(** [EasyTest.createTestContext] and [EasyTest.injectify] run their bodies
    inside the framework's [inject]; they are taken as given. *)
Variable createTestContext : string → M value.
Variable injectify : list string → M value.

Definition getService (serviceName : string) : M value :=
  (services <- injectify [serviceName] ;;
   read (GetV R services serviceName))%js.

Definition getController (controllerName : string) : M value :=
  (context <- createTestContext controllerName ;;
   read (GetV R context "controller"))%js.

(** The inner loop of [looksLike], over [properties[y..]].  [Some e] is an
    early [return e]; [None] is the loop running to its end. *)
Fixpoint for_properties (object : value) (type : string)
    (properties : list string) : M (option value) :=
  match properties with
  | [] => ret None
  | property :: rest =>
      (present <- read (op_in property object) ;;
       if negb present then
         e <- new_Error R ("Expected object to have the property '" +:+
                           property +:+ "'.") ;;
         ret (Some e)
       else
         member <- read (GetV R object property) ;;
         kind <- read (typeof member) ;;
         if negb (String.eqb kind type) then
           e <- new_Error R ("Expected property '" +:+ property +:+
                             "' to be of " +:+ "type " +:+ type +:+ ".") ;;
           ret (Some e)
         else for_properties object type rest)%js
  end.

(** The outer loop, over [types[i..]]. *)
Fixpoint for_types (object spec : value) (types : list string)
  : M (option value) :=
  match types with
  | [] => ret None
  | type :: rest =>
      (names <- read (GetV R spec type) ;;
       properties <- read (call_split R names " ") ;;
       returned <- for_properties object type properties ;;
       match returned with
       | Some e => ret (Some e)
       | None => for_types object spec rest
       end)%js
  end.

Definition looksLike (object spec : value) : M value :=
  (types <- read (getOwnPropertyNames spec) ;;
   returned <- for_types object spec types ;;
   ret (match returned with Some e => e | None => VUndefined end))%js.

(** In the adapters [typeof x === 'string'] holds exactly of the primitive
    strings. *)
Definition testScope (context scopeSpec : value) : M value :=
  (context <- match context with
              | VString name => createTestContext name
              | _ => ret context
              end ;;
   scope <- read (GetV R context "$scope") ;;
   looksLike scope scopeSpec)%js.

Definition testController (controller spec : value) : M value :=
  (controller <- match controller with
                 | VString name => getController name
                 | _ => ret controller
                 end ;;
   looksLike controller spec)%js.

Definition testService (service spec : value) : M value :=
  (service <- match service with
              | VString name => getService name
              | _ => ret service
              end ;;
   looksLike service spec)%js.

End EasyTest.

End EasyTest.

(* ================================================================= *)
(** ** The checker as a verdict *)
(* ================================================================= *)

(** What [looksLike] decides, apart from the allocation of the [Error] it
    returns: the two mismatch kinds of the specification, the check of one
    (kind, member) pair, and the scan that stops at the first failure. *)
Module ShapeChecker.
Import JS.

Inductive failure : Type :=
| MissingMember (member : string)
| WrongKind (member kind : string).

(** The message of the [Error] returned for a failure. *)
Definition describe (f : failure) : string :=
  match f with
  | MissingMember member =>
      "Expected object to have the property '" +:+ member +:+ "'."
  | WrongKind member kind =>
      "Expected property '" +:+ member +:+ "' to be of type " +:+ kind +:+ "."
  end.

Section ShapeChecker.

Context (R : realm).

Definition check_member (subject : value) (kind member : string) (h : heap)
  : completion (option failure) :=
  present ← op_in member subject h;
  if present : bool then
    v ← GetV R subject member h;
    t ← typeof v h;
    Normal (if String.eqb t kind then None else Some (WrongKind member kind))
  else Normal (Some (MissingMember member)).

Fixpoint check_members (subject : value) (kind : string)
    (members : list string) (h : heap) : completion (option failure) :=
  match members with
  | [] => Normal None
  | member :: rest =>
      r ← check_member subject kind member h;
      match r with
      | Some f => Normal (Some f)
      | None => check_members subject kind rest h
      end
  end.

Fixpoint check_kinds (subject spec : value) (kinds : list string) (h : heap)
  : completion (option failure) :=
  match kinds with
  | [] => Normal None
  | kind :: rest =>
      names ← GetV R spec kind h;
      members ← call_split R names " " h;
      r ← check_members subject kind members h;
      match r with
      | Some f => Normal (Some f)
      | None => check_kinds subject spec rest h
      end
  end.

Definition check (subject spec : value) (h : heap)
  : completion (option failure) :=
  kinds ← getOwnPropertyNames spec h;
  check_kinds subject spec kinds h.

(** The verdict turned into what the caller receives. *)
Definition report (c : completion (option failure)) : M value :=
  match c with
  | Normal None => ret VUndefined
  | Normal (Some f) => new_Error R (describe f)
  | Throw e => read (λ _, Throw e)
  | Unmodelled => read (λ _, Unmodelled)
  end.

(** The first failure among a list of (kind, member) pairs. *)
Fixpoint first_failure (subject : value) (pairs : list (string * string))
    (h : heap) : completion (option failure) :=
  match pairs with
  | [] => Normal None
  | (kind, member) :: rest =>
      r ← check_member subject kind member h;
      match r with
      | Some f => Normal (Some f)
      | None => first_failure subject rest h
      end
  end.

Definition conforms (subject : value) (h : heap) (pair : string * string)
  : Prop :=
  check_member subject pair.1 pair.2 h = Normal None.

(** The intrinsic [split] is the one found on [String.prototype]. *)
Definition split_intrinsic (h : heap) : Prop :=
  Get (String_prototype R) "split" h = Normal (VObject (String_prototype_split R)).

End ShapeChecker.

(** A specification: an object whose own properties map each kind to a
    string of names. *)
Definition entry_property (entry : string * string) : string * value :=
  (entry.1, VString entry.2).

Definition specification (entries : list (string * string)) (spec : value)
    (h : heap) : Prop :=
  ∃ ls os, spec = VObject ls ∧ h !! ls = Some os ∧
           properties os = map entry_property entries ∧
           NoDup (map fst entries).

(** The (kind, member) pairs of a specification in the order of the check. *)
Definition pairs (entries : list (string * string)) : list (string * string) :=
  flat_map (λ entry, map (pair entry.1) (split " " entry.2)) entries.



(** What a caller can observe of a returned value: the value itself, or
    the contents of the object it refers to. *)
Definition content (h : heap) (v : value) : value + object :=
  match v with
  | VObject l => match h !! l with Some o => inr o | None => inl v end
  | _ => inl v
  end.

Definition result_of (r : completion value * heap)
  : completion (value + object) :=
  match r.1 with
  | Normal v => Normal (content r.2 v)
  | Throw e => Throw e
  | Unmodelled => Unmodelled
  end.

(** A read whose outcome, once inside the model, is the same in every
    larger heap. *)
Definition stable {A : Type} (r : heap → completion A) : Prop :=
  ∀ h h' : heap, h ⊆ h' → r h ≠ Unmodelled → r h' = r h.


End ShapeChecker.

(* ================================================================= *)
(** ** Concrete heaps *)
(* ================================================================= *)

Module Scenarios.
Import JS.

Definition standard : realm :=
  {| Boolean_prototype := 3; Number_prototype := 4; BigInt_prototype := 5;
     String_prototype := 6; Symbol_prototype := 7; Error_prototype := 8;
     String_prototype_split := 9 |}.

Definition plain (ps : list (string * value)) : object :=
  {| callable := false; properties := ps; prototype := Some 1%positive |}.

Definition function_object (ps : list (string * value)) : object :=
  {| callable := true; properties := ps; prototype := Some 2%positive |}.

(** The intrinsics ([Object.prototype] at 1, [Function.prototype] at 2, the
    prototypes of [standard], [split] at 9), a function at 10, and the
    subjects and specifications used below. *)
Definition objects : list (loc * object) :=
  [ (1%positive, {| callable := false;
                    properties := [("toString"%string, VObject 10)];
                    prototype := None |});
    (2%positive, function_object []);
    (3%positive, plain []);
    (4%positive, plain []);
    (5%positive, plain []);
    (6%positive, plain [("split"%string, VObject 9)]);
    (7%positive, plain []);
    (8%positive, plain [("name"%string, VString "Error");
                        ("message"%string, VString "")]);
    (9%positive, function_object []);
    (10%positive, function_object []);
    (* {} *)
    (11%positive, plain []);
    (* {foo: function(){}} *)
    (12%positive, plain [("foo"%string, VObject 10)]);
    (* {foo: 1} *)
    (13%positive, plain [("foo"%string, VNumber 1)]);
    (* {foo: function(){}, bar: 5} *)
    (14%positive, plain [("foo"%string, VObject 10); ("bar"%string, VNumber 5)]);
    (* {foo: function(){}, bar: "x"} *)
    (15%positive, plain [("foo"%string, VObject 10); ("bar"%string, VString "x")]);
    (* {"function": "foo"} *)
    (16%positive, plain [("function"%string, VString "foo")]);
    (* {"function": "foo", "number": "bar"} *)
    (17%positive, plain [("function"%string, VString "foo");
                         ("number"%string, VString "bar")]);
    (* {"function": "foo  bar"} *)
    (18%positive, plain [("function"%string, VString "foo  bar")]);
    (* {"number": "foo", "function": "foo"} *)
    (19%positive, plain [("number"%string, VString "foo");
                         ("function"%string, VString "foo")]);
    (* {$scope: {foo: 1}} *)
    (20%positive, plain [("$scope"%string, VObject 13)]) ].

Definition store : heap := list_to_map objects.

End Scenarios.

(* ================================================================= *)
(** ** Mocking modules *)
(* ================================================================= *)

Module Mocking.
Import JS.

(** [xs.forEach(callback)] on a dense array, with the built-in [forEach]:
    the callback is run on each element in order and what it returns is
    dropped. *)
Fixpoint forEach {A : Type} (xs : list A) (callback : A → M value) : M value :=
  match xs with
  | [] => ret VUndefined
  | x :: rest => JS.bind (callback x) (λ _, forEach rest callback)
  end.

Section Mocking.

Context (R : realm).

(** [angular.mock.module(moduleName)] belongs to the framework, and the body
    of [EasyTest.mockModule] only hands a closure to it; both are taken as
    given. *)
Variable angular_mock_module : string → M value.
Variable mockModule : value → value → M value.

(** [EasyTest.mockModules]: [arguments] is the list of the arguments, as
    [Array.prototype.slice.call(arguments, 0)] copies it. *)
Definition mockModules (arguments : list value) : M value :=
  forEach arguments (λ arg,
    match arg with
    | VString _ =>
        (names <- read (call_split R arg " ") ;;
         forEach names (λ moduleName, angular_mock_module moduleName))%js
    | _ =>
        (name <- read (GetV R arg "name") ;;
         values <- read (GetV R arg "values") ;;
         mockModule name values)%js
    end).

End Mocking.

(** A collaborator that leaves [String.prototype.split] in place. *)
Definition keeps_split {A : Type} (R : realm) (m : M A) : Prop :=
  ∀ h : heap, ShapeChecker.split_intrinsic R h →
              ShapeChecker.split_intrinsic R (m h).2.

(** The module names that string arguments stand for. *)
Definition module_names (arguments : list string) : list string :=
  flat_map (split " ") arguments.

End Mocking.

(* ================================================================= *)
(** ** What a verdict means *)
(* ================================================================= *)

Module Verdicts.
Import JS ShapeChecker.

(** The results [typeof] can give. *)
Definition typeof_results : list string :=
  ["undefined"; "object"; "boolean"; "number"; "bigint"; "string"; "symbol";
   "function"]%string.

Section Verdicts.

Context (R : realm).

(** The subject has the member, and its value is of the kind. *)
Definition member_of_kind (subject : value) (h : heap)
    (pair : string * string) : Prop :=
  op_in pair.2 subject h = Normal true ∧
  ∃ v, GetV R subject pair.2 h = Normal v ∧ typeof v h = Normal pair.1.



End Verdicts.

End Verdicts.

(* ================================================================= *)
(** ** More concrete heaps *)
(* ================================================================= *)

Module MoreScenarios.
Import JS Scenarios.

Definition more_objects : list (loc * object) :=
  [ (* Object.create({foo: function(){}}) *)
    (21%positive, {| callable := false; properties := [];
                     prototype := Some 12%positive |});
    (* {baz: "x", foo: 1} *)
    (22%positive, plain [("baz"%string, VString "x"); ("foo"%string, VNumber 1)]);
    (* {"array": "foo"} *)
    (23%positive, plain [("array"%string, VString "foo")]);
    (* {"function": "foo", "number": ["bar"]} *)
    (24%positive, plain [("function"%string, VString "foo");
                         ("number"%string, VObject 25)]);
    (* ["bar"] *)
    (25%positive, {| callable := false;
                     properties := [("0"%string, VString "bar");
                                    ("length"%string, VNumber 1)];
                     prototype := Some 26%positive |});
    (* Array.prototype *)
    (26%positive, plain [("forEach"%string, VObject 10)]);
    (* {"number": "bar bar", "function": "foo"} *)
    (27%positive, plain [("number"%string, VString "bar bar");
                         ("function"%string, VString "foo")]);
    (* {svc: {foo: 1}} *)
    (28%positive, plain [("svc"%string, VObject 13)]);
    (* {$scope: {foo: 1}, controller: {foo: 1}} *)
    (29%positive, plain [("$scope"%string, VObject 13);
                         ("controller"%string, VObject 13)]) ].

Definition larger_store : heap := list_to_map (objects ++ more_objects).

(** A stand-in for [angular.mock.module]: it records the module as a new
    object. *)
Definition record_module (moduleName : string) : M value :=
  JS.bind (alloc (plain [("module"%string, VString moduleName)]))
          (λ l, ret (VObject l)).

End MoreScenarios.

(* ================================================================= *)
(** ** Objects with accessor properties *)
(* ================================================================= *)

(** The language layer again, with properties that are either data
    properties or accessors.  Reading an accessor calls its getter, so member
    access is a computation on the heap and no longer a read; [in],
    [typeof] and [Object.getOwnPropertyNames] look at no getter.  The body
    of a function object is not part of the heap: [code l], when defined,
    is the call of the function at [l] on a receiver, without arguments. *)

Declare Scope getters_scope.
Delimit Scope getters_scope with getters.

Module Getters.
Import JS.

Inductive slot : Type :=
| Data (v : value)
| Accessor (getter : value).

Record object : Type := Object {
  callable : bool;
  properties : list (string * slot);
  prototype : option loc
}.

Abbreviation heap := (gmap loc object).

Definition M (A : Type) : Type := heap → completion A * heap.

Definition ret {A : Type} (a : A) : M A := λ h, (Normal a, h).

Definition bind {A B : Type} (m : M A) (f : A → M B) : M B :=
  λ h,
    match m h with
    | (Normal a, h') => f a h'
    | (Throw e, h') => (Throw e, h')
    | (Unmodelled, h') => (Unmodelled, h')
    end.

Notation "x <- m ;; k" := (bind m (λ x, k))
  (at level 100, m at next level, right associativity) : getters_scope.

Definition read {A : Type} (r : heap → completion A) : M A := λ h, (r h, h).

Definition alloc (o : object) : M loc :=
  λ h, let l := fresh (dom h) in (Normal l, <[l := o]> h).

Definition deref (l : loc) (h : heap) : completion object :=
  match h !! l with
  | Some o => Normal o
  | None => Unmodelled
  end.

Fixpoint assoc (p : string) (ps : list (string * slot)) : option slot :=
  match ps with
  | [] => None
  | (q, s) :: ps' => if String.eqb q p then Some s else assoc p ps'
  end.

Fixpoint lookup_chain (fuel : nat) (l : loc) (p : string) (h : heap)
  : completion (option slot) :=
  match fuel with
  | O => Unmodelled
  | S fuel' =>
      o ← deref l h;
      match assoc p (properties o) with
      | Some s => Normal (Some s)
      | None =>
          match prototype o with
          | Some parent => lookup_chain fuel' parent p h
          | None => Normal None
          end
      end
  end.

Definition GetProperty (l : loc) (p : string) (h : heap)
  : completion (option slot) :=
  lookup_chain (size h) l p h.

Definition HasProperty (l : loc) (p : string) (h : heap) : completion bool :=
  r ← GetProperty l p h;
  Normal (match r with Some _ => true | None => false end).

(** [p in v] *)
Definition op_in (p : string) (v : value) (h : heap) : completion bool :=
  match v with
  | VObject l => HasProperty l p h
  | _ => Throw TypeError
  end.

(** [typeof v] *)
Definition typeof (v : value) (h : heap) : completion string :=
  match v with
  | VUndefined => Normal "undefined"%string
  | VNull => Normal "object"%string
  | VBoolean _ => Normal "boolean"%string
  | VNumber _ => Normal "number"%string
  | VBigInt _ => Normal "bigint"%string
  | VString _ => Normal "string"%string
  | VSymbol _ => Normal "symbol"%string
  | VObject l =>
      o ← deref l h;
      Normal (if callable o then "function" else "object")%string
  end.

(** [Object.getOwnPropertyNames(v)] *)
Definition getOwnPropertyNames (v : value) (h : heap)
  : completion (list string) :=
  match v with
  | VUndefined | VNull => Throw TypeError
  | VString s => Normal (string_own_names s)
  | VObject l => o ← deref l h; Normal (map fst (properties o))
  | VBoolean _ | VNumber _ | VBigInt _ | VSymbol _ => Normal []
  end.

Definition Error_object (R : realm) (message : string) : object :=
  {| callable := false;
     properties := [("message"%string, Data (VString message))];
     prototype := Some (Error_prototype R) |}.

(** [new Error(message)] *)
Definition new_Error (R : realm) (message : string) : M value :=
  bind (alloc (Error_object R message)) (λ l, ret (VObject l)).

Section Getters.

Context (R : realm).

Variable code : loc → option (value → M value).

(** The call of [f] on the receiver [this], without arguments. *)
Definition Call (f this : value) : M value :=
  match f with
  | VObject lf =>
      (o <- read (deref lf) ;;
       if callable o then
         match code lf with
         | Some body => body this
         | None => read (λ _, Unmodelled)
         end
       else read (λ _, Throw TypeError))%getters
  | _ => read (λ _, Throw TypeError)
  end.

(** The property [p] of the object at [l], read for [receiver]: the value
    of a data property, or what the getter of an accessor returns. *)
Definition Get (l : loc) (p : string) (receiver : value) : M value :=
  (r <- read (GetProperty l p) ;;
   match r with
   | None => ret VUndefined
   | Some (Data v) => ret v
   | Some (Accessor VUndefined) => ret VUndefined
   | Some (Accessor getter) => Call getter receiver
   end)%getters.

(** [v[p]], also written [v.p] *)
Definition GetV (v : value) (p : string) : M value :=
  match v with
  | VUndefined | VNull => read (λ _, Throw TypeError)
  | VBoolean _ => Get (Boolean_prototype R) p v
  | VNumber _ => Get (Number_prototype R) p v
  | VBigInt _ => Get (BigInt_prototype R) p v
  | VString s =>
      match string_own_property s p with
      | Some x => ret x
      | None => Get (String_prototype R) p v
      end
  | VSymbol _ => Get (Symbol_prototype R) p v
  | VObject l => Get l p v
  end.

(** [v.split(sep)]; as before, only the intrinsic [split] on a string
    receiver is run. *)
Definition call_split (v : value) (sep : ascii) : M (list string) :=
  (f <- GetV v "split" ;;
   match f with
   | VObject lf =>
       if decide (lf = String_prototype_split R) then
         match v with
         | VString s => ret (split sep s)
         | _ => read (λ _, Unmodelled)
         end
       else
         read (λ h, o ← deref lf h;
                    if callable o then Unmodelled else Throw TypeError)
   | _ => read (λ _, Throw TypeError)
   end)%getters.

(** [EasyTest.looksLike], statement by statement, on these objects. *)
Fixpoint for_properties (object : value) (type : string)
    (properties : list string) : M (option value) :=
  match properties with
  | [] => ret None
  | property :: rest =>
      (present <- read (op_in property object) ;;
       if negb present then
         e <- new_Error R ("Expected object to have the property '" +:+
                           property +:+ "'.") ;;
         ret (Some e)
       else
         member <- GetV object property ;;
         kind <- read (typeof member) ;;
         if negb (String.eqb kind type) then
           e <- new_Error R ("Expected property '" +:+ property +:+
                             "' to be of " +:+ "type " +:+ type +:+ ".") ;;
           ret (Some e)
         else for_properties object type rest)%getters
  end.

Fixpoint for_types (object spec : value) (types : list string)
  : M (option value) :=
  match types with
  | [] => ret None
  | type :: rest =>
      (names <- GetV spec type ;;
       properties <- call_split names " " ;;
       returned <- for_properties object type properties ;;
       match returned with
       | Some e => ret (Some e)
       | None => for_types object spec rest
       end)%getters
  end.

Definition looksLike (object spec : value) : M value :=
  (types <- read (getOwnPropertyNames spec) ;;
   returned <- for_types object spec types ;;
   ret (match returned with Some e => e | None => VUndefined end))%getters.

(** The verdict turned into what the caller receives. *)
Definition report (c : completion (option ShapeChecker.failure)) : M value :=
  match c with
  | Normal None => ret VUndefined
  | Normal (Some f) => new_Error R (ShapeChecker.describe f)
  | Throw e => read (λ _, Throw e)
  | Unmodelled => read (λ _, Unmodelled)
  end.

(** The intrinsic [split] is the data property found on [String.prototype]. *)
Definition split_intrinsic (h : heap) : Prop :=
  GetProperty (String_prototype R) "split" h =
  Normal (Some (Data (VObject (String_prototype_split R)))).

End Getters.

(** The data view of a heap: each accessor read as [undefined]. *)
Definition slot_value (s : slot) : value :=
  match s with
  | Data v => v
  | Accessor _ => VUndefined
  end.

Definition erase_property (ps : string * slot) : string * value :=
  (ps.1, slot_value ps.2).

Definition erase_object (o : object) : JS.object :=
  {| JS.callable := callable o;
     JS.properties := map erase_property (properties o);
     JS.prototype := prototype o |}.

Definition erase (h : heap) : JS.heap := erase_object <$> h.

(** A specification: an object whose own properties are data properties
    mapping each kind to a string of names. *)
Definition entry_property (entry : string * string) : string * slot :=
  (entry.1, Data (VString entry.2)).

Definition specification (entries : list (string * string)) (spec : value)
    (h : heap) : Prop :=
  ∃ ls os, spec = VObject ls ∧ h !! ls = Some os ∧
           properties os = map entry_property entries ∧
           NoDup (map fst entries).

(** The member [p], looked up from [l], is absent or is a data property
    (whose value is not a dangling reference): reading it runs no getter. *)
Definition data_member (l : loc) (p : string) (h : heap) : Prop :=
  ∃ r, GetProperty l p h = Normal r ∧
       match r with
       | None => True
       | Some (Data v) => ∃ t, typeof v h = Normal t
       | Some (Accessor _) => False
       end.

(** The members that the specification names are data members of the
    subject, when the subject is an object. *)
Definition data_members (subject : value) (entries : list (string * string))
    (h : heap) : Prop :=
  ∀ l, subject = VObject l →
       Forall (λ pair, data_member l pair.2 h) (ShapeChecker.pairs entries).

(** What a caller can observe of a returned value. *)
Definition content (h : heap) (v : value) : value + object :=
  match v with
  | VObject l => match h !! l with Some o => inr o | None => inl v end
  | _ => inl v
  end.

Definition result_of (r : completion value * heap)
  : completion (value + object) :=
  match r.1 with
  | Normal v => Normal (content r.2 v)
  | Throw e => Throw e
  | Unmodelled => Unmodelled
  end.

(** [o.p = v] on an ordinary object whose [p], if present, is an own data
    property: the property is overwritten, or added after the others. *)
Fixpoint put (p : string) (v : value) (ps : list (string * slot))
  : list (string * slot) :=
  match ps with
  | [] => [(p, Data v)]
  | (q, s) :: ps' =>
      if String.eqb q p then (q, Data v) :: ps' else (q, s) :: put p v ps'
  end.

Definition assign (l : loc) (p : string) (v : value) : M value :=
  λ h,
    match h !! l with
    | Some o =>
        (Normal v,
         <[l := {| callable := callable o;
                   properties := put p v (properties o);
                   prototype := prototype o |}]> h)
    | None => (Unmodelled, h)
    end.

End Getters.

(* ================================================================= *)
(** ** Subjects with getters *)
(* ================================================================= *)

Module GetterScenarios.
Import JS Getters.

Definition plain (ps : list (string * Getters.slot)) : Getters.object :=
  {| Getters.callable := false; Getters.properties := ps;
     Getters.prototype := Some 1%positive |}.

Definition function_object : Getters.object :=
  {| Getters.callable := true; Getters.properties := [];
     Getters.prototype := Some 2%positive |}.

(** [Object.prototype] at 1, [Function.prototype] at 2, the prototypes of
    [Scenarios.standard] at 3 to 8, [split] at 9, and
<<
    var f = function () {};                                  // at 10
    var spec = { 'function': 'foo' };                        // at 16
    var state = { used: false };                             // at 32
    var fickle = { get foo() {                               // at 31, getter at 33
      if (!state.used) { state.used = true; return f; }
      return 1;
    } };
    var marking = { get foo() {                              // at 34, getter at 35
      this.touched = true; return f;
    } };
>> *)
Definition objects : list (loc * Getters.object) :=
  [ (1%positive, {| Getters.callable := false; Getters.properties := [];
                    Getters.prototype := None |});
    (2%positive, {| Getters.callable := true; Getters.properties := [];
                    Getters.prototype := Some 1%positive |});
    (3%positive, plain []);
    (4%positive, plain []);
    (5%positive, plain []);
    (6%positive, plain [("split"%string, Getters.Data (VObject 9))]);
    (7%positive, plain []);
    (8%positive, plain [("name"%string, Getters.Data (VString "Error"));
                        ("message"%string, Getters.Data (VString ""))]);
    (9%positive, function_object);
    (10%positive, function_object);
    (* {foo: 1} *)
    (13%positive, plain [("foo"%string, Getters.Data (VNumber 1))]);
    (16%positive, plain [("function"%string, Getters.Data (VString "foo"))]);
    (31%positive, plain [("foo"%string, Getters.Accessor (VObject 33))]);
    (32%positive, plain [("used"%string, Getters.Data (VBoolean false))]);
    (33%positive, function_object);
    (34%positive, plain [("foo"%string, Getters.Accessor (VObject 35))]);
    (35%positive, function_object) ].

Definition store : Getters.heap := list_to_map objects.

(** The getter of [fickle.foo]. *)
Definition fickle_foo (this : value) : Getters.M value :=
  (used <- Getters.read (λ h, o ← Getters.deref 32 h;
                              match Getters.assoc "used" (Getters.properties o) with
                              | Some (Getters.Data v) => Normal v
                              | _ => Unmodelled
                              end) ;;
   match used with
   | VBoolean false =>
       _ <- Getters.assign 32 "used" (VBoolean true) ;;
       Getters.ret (VObject 10)
   | VBoolean true => Getters.ret (VNumber 1)
   | _ => Getters.read (λ _, Unmodelled)
   end)%getters.

(** The getter of [marking.foo]. *)
Definition marking_foo (this : value) : Getters.M value :=
  match this with
  | VObject l =>
      (_ <- Getters.assign l "touched" (VBoolean true) ;;
       Getters.ret (VObject 10))%getters
  | _ => Getters.read (λ _, Unmodelled)
  end.

Definition code (l : loc) : option (value → Getters.M value) :=
  if decide (l = 33%positive) then Some fickle_foo
  else if decide (l = 35%positive) then Some marking_foo
  else None.

End GetterScenarios.

(* ================================================================= *)
(** ** The program computes the verdict *)
(* ================================================================= *)

Import JS EasyTest ShapeChecker.

Section Refinement.

Context (R : realm).

Lemma bind_Normal {A B : Type} (a : A) (f : A → completion B) :
  (Normal a ≫= f) = f a.
Proof. reflexivity. Qed.

Lemma for_properties_check object type properties h :
  for_properties R object type properties h =
  match check_members R object type properties h with
  | Normal None => (Normal None, h)
  | Normal (Some f) =>
      JS.bind (new_Error R (describe f)) (λ e, ret (Some e)) h
  | Throw e => (Throw e, h)
  | Unmodelled => (Unmodelled, h)
  end.
Proof.
  induction properties as [|property rest IH]; [reflexivity|].
  cbn [for_properties check_members]. unfold check_member, JS.bind, read.
  destruct (op_in property object h) as [[]| |]; cbn; try reflexivity.
  destruct (GetV R object property h) as [member| |]; cbn; try reflexivity.
  destruct (typeof member h) as [kind| |]; cbn; try reflexivity.
  destruct (String.eqb kind type); cbn; [apply IH | reflexivity].
Qed.

Lemma for_types_check object spec types h :
  for_types R object spec types h =
  match check_kinds R object spec types h with
  | Normal None => (Normal None, h)
  | Normal (Some f) =>
      JS.bind (new_Error R (describe f)) (λ e, ret (Some e)) h
  | Throw e => (Throw e, h)
  | Unmodelled => (Unmodelled, h)
  end.
Proof.
  induction types as [|type rest IH]; [reflexivity|].
  cbn [for_types check_kinds]. unfold JS.bind at 1 2, read.
  destruct (GetV R spec type h) as [names| |]; cbn; try reflexivity.
  destruct (call_split R names " " h) as [properties| |]; cbn; try reflexivity.
  unfold JS.bind at 1. rewrite for_properties_check.
  destruct (check_members R object type properties h) as [[f|]| |];
    cbn; try reflexivity.
  apply IH.
Qed.

(** [looksLike] is the verdict of [check], reported. *)
Lemma looksLike_check object spec h :
  looksLike R object spec h = report R (check R object spec h) h.
Proof.
  unfold looksLike, check, JS.bind at 1 2, read.
  destruct (getOwnPropertyNames spec h) as [types| |]; cbn; try reflexivity.
  rewrite for_types_check.
  destruct (check_kinds R object spec types h) as [[f|]| |]; reflexivity.
Qed.

Lemma check_members_first_failure subject kind members h :
  check_members R subject kind members h =
  first_failure R subject (map (pair kind) members) h.
Proof.
  induction members as [|member rest IH]; [reflexivity|].
  cbn. destruct (check_member R subject kind member h) as [[f|]| |];
    cbn; auto.
Qed.

Lemma first_failure_app subject before after h :
  first_failure R subject (before ++ after) h =
  (r ← first_failure R subject before h;
   match r with
   | Some f => Normal (Some f)
   | None => first_failure R subject after h
   end).
Proof.
  induction before as [|[kind member] rest IH]; cbn.
  - destruct (first_failure R subject after h) as [[f|]| |]; reflexivity.
  - destruct (check_member R subject kind member h) as [[f|]| |];
      cbn; auto.
Qed.

(** Pairs that conform are passed over. *)
Lemma first_failure_skip subject before after h :
  Forall (conforms R subject h) before →
  first_failure R subject (before ++ after) h = first_failure R subject after h.
Proof.
  induction 1 as [|[kind member] rest Hc _ IH]; [reflexivity|].
  cbn. unfold conforms in Hc. cbn in Hc. rewrite Hc. exact IH.
Qed.

Lemma first_failure_at subject before kind member after f h :
  Forall (conforms R subject h) before →
  check_member R subject kind member h = Normal (Some f) →
  first_failure R subject (before ++ (kind, member) :: after) h =
  Normal (Some f).
Proof.
  intros Hb Hf. rewrite first_failure_skip by exact Hb. cbn. by rewrite Hf.
Qed.

Lemma lookup_size_pos (h : heap) l o : h !! l = Some o → ∃ n, size h = S n.
Proof.
  intros Hl. destruct (size h) eqn:Hs; [|eauto].
  apply map_size_empty_iff in Hs. subst h. by rewrite lookup_empty in Hl.
Qed.

Lemma Get_own (h : heap) l o p v :
  h !! l = Some o → assoc p (properties o) = Some v → Get l p h = Normal v.
Proof.
  intros Hl Hp. unfold Get, GetProperty.
  destruct (lookup_size_pos h l o Hl) as [n ->].
  cbn. unfold deref. rewrite Hl. cbn. by rewrite Hp.
Qed.

Lemma assoc_entries entries kind names :
  NoDup (map fst entries) → (kind, names) ∈ entries →
  assoc kind (map entry_property entries) = Some (VString names).
Proof.
  induction entries as [|[k n] rest IH]; cbn; intros Hnd Hin.
  - by apply elem_of_nil in Hin.
  - apply NoDup_cons in Hnd as [Hk Hnd].
    apply elem_of_cons in Hin as [Heq|Hin].
    + injection Heq as <- <-. by rewrite String.eqb_refl.
    + destruct (String.eqb k kind) eqn:Hkk; [|by apply IH].
      apply String.eqb_eq in Hkk. subst k. exfalso. apply Hk.
      apply list_elem_of_fmap. by exists (kind, names).
Qed.

Lemma string_own_property_split s : string_own_property s "split" = None.
Proof. reflexivity. Qed.

Lemma call_split_string names h :
  split_intrinsic R h →
  call_split R (VString names) " " h = Normal (split " " names).
Proof.
  intros Hs. unfold call_split, GetV. rewrite string_own_property_split.
  unfold split_intrinsic in Hs. rewrite Hs. cbn. by rewrite decide_True.
Qed.

Lemma check_kinds_entries subject spec es h :
  split_intrinsic R h →
  (∀ kind names, (kind, names) ∈ es →
     GetV R spec kind h = Normal (VString names)) →
  check_kinds R subject spec (map fst es) h =
  first_failure R subject (pairs es) h.
Proof.
  intros Hs. induction es as [|[kind names] rest IH]; intros Hget;
    [reflexivity|].
  cbn [map fst check_kinds]. unfold pairs. cbn [flat_map fst snd].
  rewrite first_failure_app, <- check_members_first_failure.
  rewrite (Hget kind names) by apply list_elem_of_here.
  rewrite bind_Normal, call_split_string, bind_Normal by exact Hs.
  destruct (check_members R subject kind (split " " names) h) as [[f|]| |];
    cbn; try reflexivity.
  apply IH. intros k n Hin. apply Hget. by apply list_elem_of_further.
Qed.

(** On a specification the verdict is the first failure among its pairs. *)
Lemma check_specification subject spec entries h :
  split_intrinsic R h → specification entries spec h →
  check R subject spec h = first_failure R subject (pairs entries) h.
Proof.
  intros Hs (ls & os & -> & Hl & Hp & Hnd).
  unfold check. cbn. unfold deref. rewrite Hl. cbn. rewrite Hp.
  replace (map fst (map entry_property entries)) with (map fst entries)
    by (rewrite map_map; reflexivity).
  apply check_kinds_entries; [exact Hs|].
  intros kind names Hin. cbn. apply (Get_own h ls os); [exact Hl|].
  rewrite Hp. by apply assoc_entries.
Qed.

Lemma looksLike_first_failure subject spec entries before kind member after f h :
  split_intrinsic R h → specification entries spec h →
  pairs entries = before ++ (kind, member) :: after →
  Forall (conforms R subject h) before →
  check_member R subject kind member h = Normal (Some f) →
  looksLike R subject spec h = new_Error R (describe f) h.
Proof.
  intros Hs Hspec Hpairs Hb Hf.
  rewrite looksLike_check, (check_specification _ _ entries) by assumption.
  rewrite Hpairs, (first_failure_at _ _ _ _ _ f) by assumption.
  reflexivity.
Qed.

(** When every pair conforms the call passes. *)
Lemma looksLike_passes subject spec entries h :
  split_intrinsic R h → specification entries spec h →
  Forall (conforms R subject h) (pairs entries) →
  looksLike R subject spec h = (Normal VUndefined, h).
Proof.
  intros Hs Hspec Hall.
  rewrite looksLike_check, (check_specification _ _ entries) by assumption.
  rewrite <- (app_nil_r (pairs entries)), first_failure_skip by exact Hall.
  reflexivity.
Qed.

End Refinement.

(* ================================================================= *)
(** ** Prototype chains that end *)
(* ================================================================= *)

Section Chains.

Context (R : realm).











End Chains.

(* ================================================================= *)
(** ** Reads are stable under allocation *)
(* ================================================================= *)

Section Frame.

Context (R : realm).

Lemma stable_bind {A B : Type} (r : heap → completion A)
    (f : A → heap → completion B) :
  stable r → (∀ a, stable (f a)) → stable (λ h, a ← r h; f a h).
Proof.
  intros Hr Hf h h' Hsub Hne.
  destruct (r h) as [a| |] eqn:Hrh; cbn in Hne; try done.
  - rewrite Hr, Hrh by (done || by rewrite Hrh). cbn. by apply Hf.
  - rewrite Hr, Hrh by (done || by rewrite Hrh). reflexivity.
Qed.

Lemma stable_const {A : Type} (c : completion A) : stable (λ _, c).
Proof. by intros h h' _ _. Qed.

Lemma deref_stable l : stable (deref l).
Proof.
  intros h h' Hsub Hne. unfold deref in *.
  destruct (h !! l) as [o|] eqn:Hl; [|done].
  by rewrite (lookup_weaken _ _ _ _ Hl Hsub).
Qed.

Lemma lookup_chain_mono (h h' : heap) p fuel fuel' l :
  h ⊆ h' → fuel ≤ fuel' → lookup_chain fuel l p h ≠ Unmodelled →
  lookup_chain fuel' l p h' = lookup_chain fuel l p h.
Proof.
  intros Hsub. revert fuel' l.
  induction fuel as [|fuel IH]; intros [|fuel'] l Hle Hne;
    cbn in *; try done; try lia.
  unfold deref in *. destruct (h !! l) as [o|] eqn:Hl; [|done].
  rewrite (lookup_weaken _ _ _ _ Hl Hsub). cbn in *.
  destruct (assoc p (properties o)); [done|].
  destruct (prototype o); [|done]. apply IH; [lia | done].
Qed.

Lemma GetProperty_stable l p : stable (GetProperty l p).
Proof.
  intros h h' Hsub Hne. unfold GetProperty in *.
  apply lookup_chain_mono; [done | by apply map_subseteq_size | done].
Qed.

Lemma HasProperty_stable l p : stable (HasProperty l p).
Proof.
  apply (stable_bind (GetProperty l p)); [apply GetProperty_stable|].
  intros r. apply stable_const.
Qed.

Lemma Get_stable l p : stable (Get l p).
Proof.
  apply (stable_bind (GetProperty l p)); [apply GetProperty_stable|].
  intros r. apply stable_const.
Qed.

Lemma op_in_stable p v : stable (op_in p v).
Proof.
  destruct v; try apply stable_const. apply HasProperty_stable.
Qed.

Lemma GetV_stable v p : stable (GetV R v p).
Proof.
  destruct v; try apply stable_const; try apply Get_stable.
  intros h h' Hsub Hne. cbn in *.
  destruct (string_own_property s p); [done | by apply Get_stable].
Qed.

Lemma typeof_stable v : stable (typeof v).
Proof.
  destruct v; try apply stable_const.
  apply (stable_bind (deref l)); [apply deref_stable|].
  intros o. apply stable_const.
Qed.

Lemma getOwnPropertyNames_stable v : stable (getOwnPropertyNames v).
Proof.
  destruct v; try apply stable_const.
  apply (stable_bind (deref l)); [apply deref_stable|].
  intros o. apply stable_const.
Qed.

Lemma call_split_stable v sep : stable (call_split R v sep).
Proof.
  apply (stable_bind (GetV R v "split")); [apply GetV_stable|].
  intros [| | | | | | |lf]; try apply stable_const.
  destruct (decide (lf = String_prototype_split R)); [apply stable_const|].
  apply (stable_bind (deref lf)); [apply deref_stable|].
  intros o. apply stable_const.
Qed.

Lemma check_member_stable subject kind member :
  stable (check_member R subject kind member).
Proof.
  apply (stable_bind (op_in member subject)); [apply op_in_stable|].
  intros [|]; [|apply stable_const].
  apply (stable_bind (GetV R subject member)); [apply GetV_stable|].
  intros v. apply (stable_bind (typeof v)); [apply typeof_stable|].
  intros t. apply stable_const.
Qed.

Lemma check_members_stable subject kind members :
  stable (check_members R subject kind members).
Proof.
  induction members as [|member rest IH]; [apply stable_const|].
  apply (stable_bind (check_member R subject kind member));
    [apply check_member_stable|].
  intros [f|]; [apply stable_const | exact IH].
Qed.

Lemma check_kinds_stable subject spec kinds :
  stable (check_kinds R subject spec kinds).
Proof.
  induction kinds as [|kind rest IH]; [apply stable_const|].
  apply (stable_bind (GetV R spec kind)); [apply GetV_stable|].
  intros names.
  apply (stable_bind (call_split R names " ")); [apply call_split_stable|].
  intros members.
  apply (stable_bind (check_members R subject kind members));
    [apply check_members_stable|].
  intros [f|]; [apply stable_const | exact IH].
Qed.

Lemma check_stable subject spec : stable (check R subject spec).
Proof.
  apply (stable_bind (getOwnPropertyNames spec));
    [apply getOwnPropertyNames_stable|].
  intros kinds. apply check_kinds_stable.
Qed.

Lemma fresh_lookup (h : heap) : h !! fresh (dom h) = None.
Proof. apply not_elem_of_dom, is_fresh. Qed.

Lemma alloc_subseteq (h : heap) o : h ⊆ <[fresh (dom h) := o]> h.
Proof. apply insert_subseteq, fresh_lookup. Qed.

(** What a report leaves in the heap and what can be observed of it. *)
Lemma report_heap c h :
  (report R c h).2 = h ∨
  ∃ f, c = Normal (Some f) ∧
       report R c h =
       (Normal (VObject (fresh (dom h))),
        <[fresh (dom h) := Error_object R (describe f)]> h).
Proof.
  destruct c as [[f|]| |]; cbn; auto. right. by exists f.
Qed.

Lemma result_of_report c h :
  result_of (report R c h) =
  match c with
  | Normal None => Normal (inl VUndefined)
  | Normal (Some f) => Normal (inr (Error_object R (describe f)))
  | Throw e => Throw e
  | Unmodelled => Unmodelled
  end.
Proof.
  destruct c as [[f|]| |]; try reflexivity.
  unfold result_of, content. cbn. by rewrite lookup_insert_eq.
Qed.

Lemma report_Unmodelled c h : (report R c h).1 = Unmodelled → c = Unmodelled.
Proof. by destruct c as [[f|]| |]. Qed.

End Frame.

(* ================================================================= *)
(** ** Splitting on single spaces *)
(* ================================================================= *)

Section Splitting.

Lemma split_nonempty sep s : split sep s ≠ [].
Proof.
  destruct s as [|c s]; cbn; [done|].
  destruct (Ascii.eqb c sep); [done|]. by destruct (split sep s).
Qed.

(** Every occurrence of the separator ends a piece and starts the next. *)
Lemma split_append sep a b :
  split sep (a +:+ String sep b) = split sep a ++ split sep b.
Proof.
  induction a as [|c a IH]; simpl.
  - by rewrite Ascii.eqb_refl.
  - destruct (Ascii.eqb c sep); [by rewrite IH|].
    rewrite IH. pose proof (split_nonempty sep a) as Hne.
    by destruct (split sep a).
Qed.


Lemma pairs_elem entries kind names member :
  (kind, names) ∈ entries → member ∈ split " " names →
  (kind, member) ∈ pairs entries.
Proof.
  intros He Hm. unfold pairs. apply list_elem_of_In, in_flat_map.
  exists (kind, names). split; [by apply list_elem_of_In|].
  cbn. apply in_map. by apply list_elem_of_In.
Qed.

End Splitting.

(* ================================================================= *)
(** ** Properties of the checker *)
(* ================================================================= *)

Section Properties.

Context (R : realm).


(** C2. When the first pair of the check order names a member that is absent
    from the subject, the call returns the missing-member [Error] naming it,
    whatever the other members of the subject are. *)
Theorem looksLike_missing_member subject spec entries kind member after h :
  split_intrinsic R h → specification entries spec h →
  pairs entries = (kind, member) :: after →
  op_in member subject h = Normal false →
  looksLike R subject spec h =
  new_Error R ("Expected object to have the property '" +:+ member +:+ "'.") h.
Proof.
  intros Hs Hspec Hpairs Hin.
  apply (looksLike_first_failure R subject spec entries [] kind member after
           (MissingMember member)); try done.
  unfold check_member. by rewrite Hin.
Qed.



(** C5. On a specification with no entry the call returns [undefined],
    whatever the subject is, and leaves the heap as it was. *)
Theorem looksLike_empty_spec subject ls os (h : heap) :
  h !! ls = Some os → properties os = [] →
  looksLike R subject (VObject ls) h = (Normal VUndefined, h).
Proof.
  intros Hl Hp. rewrite looksLike_check. unfold check. cbn.
  unfold deref. rewrite Hl. cbn. by rewrite Hp.
Qed.


(** C7. Given an argument that is already resolved (not a string), each
    adapter returns what [looksLike] returns, heap included: [testController]
    and [testService] on the argument itself, [testScope] on the [$scope]
    member of the argument. *)
Theorem adapters_forward_looksLike createTestContext injectify x spec h :
  (∀ name, x ≠ VString name) →
  testController R createTestContext x spec h = looksLike R x spec h ∧
  testService R injectify x spec h = looksLike R x spec h ∧
  testScope R createTestContext x spec h =
  JS.bind (read (GetV R x "$scope")) (λ scope, looksLike R scope spec) h.
Proof.
  intros Hx. unfold testController, testService, testScope.
  destruct x; try (by repeat split). by destruct (Hx s).
Qed.


End Properties.

(* ================================================================= *)
(** ** The properties on concrete heaps *)
(* ================================================================= *)

Section Concrete.

Import Scenarios.

Ltac evaluate := vm_compute; reflexivity.

Ltac decided :=
  lazymatch goal with
  | |- ?P => apply (bool_decide_unpack P); vm_compute; exact I
  end.

Ltac is_specification l o :=
  exists l, o;
  split; [reflexivity|];
  split; [evaluate|];
  split; [reflexivity | decided].


(** The scenarios of the specification. *)
Example scenario_1 :
  looksLike standard (VObject 12) (VObject 16) store = (Normal VUndefined, store).
Proof. evaluate. Qed.

Example scenario_2 :
  looksLike standard (VObject 11) (VObject 16) store =
  new_Error standard "Expected object to have the property 'foo'." store.
Proof. evaluate. Qed.

Example scenario_3 :
  looksLike standard (VObject 13) (VObject 16) store =
  new_Error standard "Expected property 'foo' to be of type function." store.
Proof. evaluate. Qed.

Example scenario_4 :
  looksLike standard (VObject 14) (VObject 17) store = (Normal VUndefined, store).
Proof. evaluate. Qed.

Example scenario_5 :
  looksLike standard (VObject 15) (VObject 17) store =
  new_Error standard "Expected property 'bar' to be of type number." store.
Proof. evaluate. Qed.

(** A member inherited along the prototype chain is a member. *)
Example inherited_member :
  looksLike standard (VObject 11) (VObject 21)
            (<[21%positive := plain [("function"%string, VString "toString")]]> store) =
  (Normal VUndefined,
   <[21%positive := plain [("function"%string, VString "toString")]]> store).
Proof. evaluate. Qed.


(** [looksLike({}, {"function": "foo"})] *)
Lemma looksLike_missing_member_witness :
  looksLike standard (VObject 11) (VObject 16) store =
  new_Error standard "Expected object to have the property 'foo'." store.
Proof.
  refine (looksLike_missing_member standard (VObject 11) (VObject 16)
            [("function", "foo")]%string "function" "foo" [] store _ _ _ _).
  - evaluate.
  - is_specification 16%positive (plain [("function"%string, VString "foo")]).
  - reflexivity.
  - evaluate.
Defined.




(** The empty specification [{}] passes the number [1]. *)
Lemma looksLike_empty_spec_witness :
  looksLike standard (VNumber 1) (VObject 11) store = (Normal VUndefined, store).
Proof.
  refine (looksLike_empty_spec standard (VNumber 1) 11%positive (plain [])
            store _ _).
  - evaluate.
  - reflexivity.
Defined.


(** Adapters on resolved arguments: the object [{foo: 1}] and the context
    [{$scope: {foo: 1}}]. *)
Lemma adapters_forward_looksLike_witness :
  testController standard (λ _, ret VUndefined) (VObject 13) (VObject 16) store =
  looksLike standard (VObject 13) (VObject 16) store ∧
  testService standard (λ _, ret VUndefined) (VObject 13) (VObject 16) store =
  looksLike standard (VObject 13) (VObject 16) store ∧
  testScope standard (λ _, ret VUndefined) (VObject 20) (VObject 16) store =
  looksLike standard (VObject 13) (VObject 16) store.
Proof.
  destruct (adapters_forward_looksLike standard (λ _, ret VUndefined)
              (λ _, ret VUndefined) (VObject 13) (VObject 16) store
              ltac:(discriminate)) as (Hc & Hs & _).
  destruct (adapters_forward_looksLike standard (λ _, ret VUndefined)
              (λ _, ret VUndefined) (VObject 20) (VObject 16) store
              ltac:(discriminate)) as (_ & _ & Hscope).
  split; [exact Hc|]. split; [exact Hs|].
  rewrite Hscope. evaluate.
Defined.


End Concrete.

(* ================================================================= *)
(** ** Verdicts read back *)
(* ================================================================= *)

Import Mocking Verdicts.

Section Reading.

Context (R : realm).

Lemma member_of_kind_conforms subject h pair :
  member_of_kind R subject h pair ↔ conforms R subject h pair.
Proof.
  destruct pair as [kind member].
  unfold member_of_kind, conforms, check_member. cbn. split.
  - intros (Hin & v & Hv & Ht). rewrite Hin. cbn. rewrite Hv. cbn.
    rewrite Ht. cbn. by rewrite String.eqb_refl.
  - destruct (op_in member subject h) as [[]| |]; cbn; try done.
    destruct (GetV R subject member h) as [v| |]; cbn; try done.
    destruct (typeof v h) as [t| |] eqn:Hty; cbn; try done.
    destruct (String.eqb t kind) eqn:Ht; [|done].
    apply String.eqb_eq in Ht. subst t. intros _. split; [done|].
    by exists v.
Qed.


Lemma first_failure_None subject pairs h :
  first_failure R subject pairs h = Normal None ↔
  Forall (conforms R subject h) pairs.
Proof.
  induction pairs as [|[kind member] rest IH]; cbn.
  - split; [constructor | done].
  - rewrite Forall_cons. unfold conforms at 1. cbn.
    destruct (check_member R subject kind member h) as [[f|]| |]; cbn;
      try (split; [done | intros [? _]; done]).
    rewrite IH. split; [done | by intros [_ ?]].
Qed.



Lemma report_pass c h : (report R c h).1 = Normal VUndefined ↔ c = Normal None.
Proof. destruct c as [[f|]| |]; cbn; split; done. Qed.


Lemma looksLike_pass_conforms subject spec entries h :
  split_intrinsic R h → specification entries spec h →
  (looksLike R subject spec h).1 = Normal VUndefined ↔
  Forall (conforms R subject h) (pairs entries).
Proof.
  intros Hs Hspec.
  rewrite looksLike_check, (check_specification R _ _ entries) by done.
  by rewrite report_pass, first_failure_None.
Qed.

Lemma typeof_range v t h : typeof v h = Normal t → t ∈ typeof_results.
Proof.
  unfold typeof_results.
  destruct v; cbn; try (intros [= <-]; set_unfold; tauto).
  unfold deref. destruct (h !! l) as [o|]; cbn; [|done].
  destruct (callable o); intros [= <-]; set_unfold; tauto.
Qed.

Lemma pairs_head kind names rest :
  ∃ member after, pairs ((kind, names) :: rest) = (kind, member) :: after.
Proof.
  unfold pairs. cbn. pose proof (split_nonempty " " names) as Hne.
  destruct (split " " names) as [|member others]; [done|].
  cbn. eauto.
Qed.

(** On a subject that is not an object the first pair already throws. *)
Lemma check_primitive_subject subject spec entries h :
  split_intrinsic R h → specification entries spec h → entries ≠ [] →
  (∀ l, subject ≠ VObject l) →
  check R subject spec h = Throw TypeError.
Proof.
  intros Hs Hspec Hne Hprim.
  rewrite (check_specification R _ _ entries) by done.
  destruct entries as [|[kind names] rest]; [done|].
  destruct (pairs_head kind names rest) as (member & after & ->).
  cbn. unfold check_member, op_in.
  destruct subject; try done. by destruct (Hprim l).
Qed.

End Reading.

(* ================================================================= *)
(** ** Which members a verdict depends on *)
(* ================================================================= *)

Section Members.

Context (R : realm).













(** X5. A kind that [typeof] never yields cannot be satisfied: a
    specification with an entry under such a kind (["array"], ["null"],
    ["Function"]) never passes, whatever the subject is. *)
Theorem looksLike_unknown_kind_never_passes subject spec entries kind names h :
  split_intrinsic R h → specification entries spec h →
  (kind, names) ∈ entries → kind ∉ typeof_results →
  (looksLike R subject spec h).1 ≠ Normal VUndefined.
Proof.
  intros Hs Hspec Hin Hkind Hpass.
  apply (looksLike_pass_conforms R _ _ entries) in Hpass; [|done..].
  pose proof (split_nonempty " " names) as Hne.
  destruct (split " " names) as [|member others] eqn:Hsplit; [done|].
  assert ((kind, member) ∈ pairs entries) as Hpair.
  { eapply pairs_elem; [exact Hin|]. rewrite Hsplit. apply list_elem_of_here. }
  rewrite Forall_forall in Hpass. specialize (Hpass _ Hpair).
  apply member_of_kind_conforms in Hpass as (_ & v & _ & Ht).
  apply Hkind. by eapply typeof_range.
Qed.

(** X6. On a subject that is not an object ([undefined], [null], a
    boolean, a number, a string, a symbol, a bigint), [looksLike] with a
    specification of at least one entry throws a [TypeError] and allocates
    nothing. *)
Theorem looksLike_throws_on_primitive_subject subject spec entries h :
  split_intrinsic R h → specification entries spec h → entries ≠ [] →
  (∀ l, subject ≠ VObject l) →
  looksLike R subject spec h = (Throw TypeError, h).
Proof.
  intros Hs Hspec Hne Hprim.
  by rewrite looksLike_check, (check_primitive_subject R _ _ entries).
Qed.



End Members.

(* ================================================================= *)
(** ** The adapters on names and on contexts *)
(* ================================================================= *)

Section Adapters.

Context (R : realm).

(** X9. Given a name, each adapter resolves it once and then does what it
    does on the resolved value: [testScope] on the context that
    [createTestContext] builds, [testController] on what [getController]
    returns, [testService] on what [getService] returns (the resolved value
    not being a string itself). *)
Theorem adapters_resolve_names createTestContext injectify name spec h :
  (∀ context h1,
     createTestContext name h = (Normal context, h1) →
     (∀ s, context ≠ VString s) →
     testScope R createTestContext (VString name) spec h =
     testScope R createTestContext context spec h1) ∧
  (∀ controller h1,
     getController R createTestContext name h = (Normal controller, h1) →
     (∀ s, controller ≠ VString s) →
     testController R createTestContext (VString name) spec h =
     testController R createTestContext controller spec h1) ∧
  (∀ service h1,
     getService R injectify name h = (Normal service, h1) →
     (∀ s, service ≠ VString s) →
     testService R injectify (VString name) spec h =
     testService R injectify service spec h1).
Proof.
  split; [|split].
  - intros context h1 Hc Hns. unfold testScope, JS.bind at 1 3. rewrite Hc.
    destruct context as [| | | | |str| |]; try done;
      by destruct (Hns str).
  - intros controller h1 Hc Hns. unfold testController, JS.bind at 1 2.
    rewrite Hc. destruct controller as [| | | | |str| |]; try done;
      by destruct (Hns str).
  - intros service h1 Hc Hns. unfold testService, JS.bind at 1 2.
    rewrite Hc. destruct service as [| | | | |str| |]; try done;
      by destruct (Hns str).
Qed.

(** X10. [testScope] on a context that has no [$scope] object (the scope
    itself, a controller, [{}]) does not report a failure: with a
    specification of at least one entry it throws a [TypeError]. *)
Theorem testScope_throws_without_scope
    createTestContext context v spec entries h :
  split_intrinsic R h → specification entries spec h → entries ≠ [] →
  (∀ s, context ≠ VString s) →
  GetV R context "$scope" h = Normal v →
  (∀ l, v ≠ VObject l) →
  testScope R createTestContext context spec h = (Throw TypeError, h).
Proof.
  intros Hs Hspec Hne Hns Hv Hprim.
  assert (testScope R createTestContext context spec h = looksLike R v spec h)
    as ->.
  { unfold testScope, JS.bind at 1 2, read.
    destruct context as [| | | | |str| |]; cbn in Hv |- *;
      first [done | by rewrite Hv | exfalso; by eapply Hns]. }
  by rewrite looksLike_check, (check_primitive_subject R _ _ entries).
Qed.

End Adapters.

(* ================================================================= *)
(** ** Properties of mockModules *)
(* ================================================================= *)

Section MockModules.

Context (R : realm).

Variable angular_mock_module : string → M value.
Variable mockModule : value → value → M value.

Lemma forEach_app {A : Type} (xs ys : list A) (callback : A → M value) h :
  forEach (xs ++ ys) callback h =
  JS.bind (forEach xs callback) (λ _, forEach ys callback) h.
Proof.
  revert h. induction xs as [|x rest IH]; intros h; [reflexivity|].
  cbn. unfold JS.bind at 1 2 3.
  destruct (callback x h) as [[r| |] h1]; [|done..].
  rewrite IH. reflexivity.
Qed.

Lemma forEach_keeps_split {A : Type} (xs : list A) (callback : A → M value) :
  (∀ x, keeps_split R (callback x)) → keeps_split R (forEach xs callback).
Proof.
  intros Hk. induction xs as [|x rest IH]; intros h Hs; [done|].
  cbn. unfold JS.bind. specialize (Hk x h Hs).
  destruct (callback x h) as [[r| |] h1]; cbn in *; [by apply IH | done..].
Qed.

Lemma module_names_app before after :
  module_names (before ++ after) = module_names before ++ module_names after.
Proof. unfold module_names. apply flat_map_app. Qed.

Lemma bind_assoc {A B C : Type} (m : M A) (f : A → M B) (g : B → M C) h :
  JS.bind (JS.bind m f) g h = JS.bind m (λ a, JS.bind (f a) g) h.
Proof. unfold JS.bind. by destruct (m h) as [[a| |] h1]. Qed.

Lemma bind_read {A B : Type} (r : heap → completion A) (k : A → M B) a h :
  r h = Normal a → JS.bind (read r) k h = k a h.
Proof. intros Hr. unfold JS.bind, read. by rewrite Hr. Qed.

Lemma bind_ext {A B : Type} (m : M A) (f g : A → M B) h :
  (∀ a h1, m h = (Normal a, h1) → f a h1 = g a h1) →
  JS.bind m f h = JS.bind m g h.
Proof.
  intros Hfg. unfold JS.bind. destruct (m h) as [[a| |] h1]; [|done..].
  by apply Hfg.
Qed.

Lemma bind_first {A B : Type} (m m' : M A) (f : A → M B) h :
  m h = m' h → JS.bind m f h = JS.bind m' f h.
Proof. intros Hm. unfold JS.bind. by rewrite Hm. Qed.

(** String arguments: one call per piece. *)
Lemma mockModules_pieces names h :
  (∀ name, keeps_split R (angular_mock_module name)) →
  split_intrinsic R h →
  mockModules R angular_mock_module mockModule (map VString names) h =
  forEach (module_names names) angular_mock_module h.
Proof.
  intros Hk. revert h. induction names as [|s rest IH]; intros h Hs;
    [reflexivity|].
  change (module_names (s :: rest)) with (split " " s ++ module_names rest).
  rewrite forEach_app. unfold mockModules in *. cbn [map forEach].
  rewrite bind_assoc, (bind_read _ _ (split " " s)) by by apply call_split_string.
  apply bind_ext. intros r h1 Hrun. apply IH.
  pose proof (forEach_keeps_split (split " " s) angular_mock_module Hk h Hs)
    as Hs1.
  by rewrite Hrun in Hs1.
Qed.

(** X11. For its leading string arguments [mockModules] makes exactly one
    [angular.mock.module] call per space-separated piece, in order, empty
    pieces included, and nothing else; it then goes on with the arguments
    that follow. *)
Theorem mockModules_calls_each_piece names rest h :
  (∀ name, keeps_split R (angular_mock_module name)) →
  split_intrinsic R h →
  mockModules R angular_mock_module mockModule (map VString names ++ rest) h =
  JS.bind (forEach (module_names names) angular_mock_module)
          (λ _, mockModules R angular_mock_module mockModule rest) h.
Proof.
  intros Hk Hs.
  pose proof (mockModules_pieces names h Hk Hs) as Hpieces.
  unfold mockModules in *. rewrite forEach_app. by apply bind_first.
Qed.

(** X12. Module names can be passed joined by a space or as separate
    arguments: [mockModules(..., a + ' ' + b, ...)] does what
    [mockModules(..., a, b, ...)] does. *)
Theorem mockModules_joined_arguments before a b after h :
  (∀ name, keeps_split R (angular_mock_module name)) →
  split_intrinsic R h →
  mockModules R angular_mock_module mockModule
    (map VString (before ++ (a +:+ " " +:+ b) :: after)) h =
  mockModules R angular_mock_module mockModule
    (map VString (before ++ a :: b :: after)) h.
Proof.
  intros Hk Hs. rewrite !mockModules_pieces by done. f_equal.
  rewrite !module_names_app. f_equal.
  change (module_names ((a +:+ " " +:+ b) :: after))
    with (split " " (a +:+ String " " b) ++ module_names after).
  change (module_names (a :: b :: after))
    with (split " " a ++ split " " b ++ module_names after).
  by rewrite split_append, <- app_assoc.
Qed.

(** X13. [mockModules] is not all-or-nothing: on an argument that is
    [undefined] or [null] it throws a [TypeError], and the modules named by
    the string arguments before it have been mocked by then. *)
Theorem mockModules_throws_after_mocking names bad rest r h h1 :
  (∀ name, keeps_split R (angular_mock_module name)) →
  split_intrinsic R h →
  forEach (module_names names) angular_mock_module h = (Normal r, h1) →
  bad = VUndefined ∨ bad = VNull →
  mockModules R angular_mock_module mockModule
    (map VString names ++ bad :: rest) h = (Throw TypeError, h1).
Proof.
  intros Hk Hs Hdone Hbad.
  pose proof (mockModules_pieces names h Hk Hs) as Hpieces.
  unfold mockModules in *. rewrite forEach_app. unfold JS.bind at 1.
  rewrite Hpieces, Hdone. by destruct Hbad as [-> | ->].
Qed.

(** X14. One call of [mockModules] with all the arguments does what two
    calls in a row do, the first with the leading arguments and the second
    with the rest; when the first part throws, the rest is not run. *)
Theorem mockModules_in_sequence first second h :
  mockModules R angular_mock_module mockModule (first ++ second) h =
  JS.bind (mockModules R angular_mock_module mockModule first)
          (λ _, mockModules R angular_mock_module mockModule second) h.
Proof. unfold mockModules. apply forEach_app. Qed.

End MockModules.

(* ================================================================= *)
(** ** These properties on concrete heaps *)
(* ================================================================= *)

Section MoreConcrete.

Import Scenarios MoreScenarios.

Ltac evaluate := vm_compute; reflexivity.

Ltac decided :=
  lazymatch goal with
  | |- ?P => apply (bool_decide_unpack P); vm_compute; exact I
  end.

Ltac is_specification l o :=
  exists l, o;
  split; [reflexivity|];
  split; [evaluate|];
  split; [reflexivity | decided].






(** [{"array": "foo"}] does not pass [{foo: function(){}}]. *)
Lemma looksLike_unknown_kind_never_passes_witness :
  (looksLike standard (VObject 12) (VObject 23) larger_store).1 ≠
  Normal VUndefined.
Proof.
  refine (looksLike_unknown_kind_never_passes standard (VObject 12) (VObject 23)
            [("array", "foo")]%string "array" "foo" larger_store _ _ _ _).
  - evaluate.
  - is_specification 23%positive (plain [("array"%string, VString "foo")]).
  - apply list_elem_of_here.
  - decided.
Defined.

(** [looksLike("abc", {"function": "foo"})] *)
Lemma looksLike_throws_on_primitive_subject_witness :
  looksLike standard (VString "abc") (VObject 16) store = (Throw TypeError, store).
Proof.
  refine (looksLike_throws_on_primitive_subject standard (VString "abc")
            (VObject 16) [("function", "foo")]%string store _ _ _ _).
  - evaluate.
  - is_specification 16%positive (plain [("function"%string, VString "foo")]).
  - discriminate.
  - discriminate.
Defined.



(** The name ["svc"], with [{$scope: {foo: 1}, controller: {foo: 1}}] as
    its context and [{svc: {foo: 1}}] as what the injector gives. *)
Lemma adapters_resolve_names_witness :
  testScope standard (λ _, ret (VObject 29)) (VString "svc") (VObject 16)
    larger_store =
  testScope standard (λ _, ret (VObject 29)) (VObject 29) (VObject 16)
    larger_store ∧
  testController standard (λ _, ret (VObject 29)) (VString "svc") (VObject 16)
    larger_store =
  testController standard (λ _, ret (VObject 29)) (VObject 13) (VObject 16)
    larger_store ∧
  testService standard (λ _, ret (VObject 28)) (VString "svc") (VObject 16)
    larger_store =
  testService standard (λ _, ret (VObject 28)) (VObject 13) (VObject 16)
    larger_store.
Proof.
  destruct (adapters_resolve_names standard (λ _, ret (VObject 29))
              (λ _, ret (VObject 28)) "svc" (VObject 16) larger_store)
    as (Hscope & Hcontroller & Hservice).
  split; [|split].
  - apply Hscope; [reflexivity | discriminate].
  - apply Hcontroller; [evaluate | discriminate].
  - apply Hservice; [evaluate | discriminate].
Defined.

(** [testScope({foo: 1}, {"function": "foo"})]: the scope passed where a
    context is expected. *)
Lemma testScope_throws_without_scope_witness :
  testScope standard (λ _, ret VUndefined) (VObject 13) (VObject 16) store =
  (Throw TypeError, store).
Proof.
  refine (testScope_throws_without_scope standard (λ _, ret VUndefined)
            (VObject 13) VUndefined (VObject 16) [("function", "foo")]%string
            store _ _ _ _ _ _).
  - evaluate.
  - is_specification 16%positive (plain [("function"%string, VString "foo")]).
  - discriminate.
  - discriminate.
  - evaluate.
  - discriminate.
Defined.

Lemma record_module_keeps_split name : keeps_split standard (record_module name).
Proof.
  intros h Hs. unfold split_intrinsic in *.
  change (record_module name h).2
    with (<[fresh (dom h) := plain [("module"%string, VString name)]]> h).
  rewrite (Get_stable _ _ h); [done | apply alloc_subseteq | by rewrite Hs].
Qed.

(** [mockModules('one two', 'three', {})] *)
Lemma mockModules_calls_each_piece_witness :
  mockModules standard record_module (λ _ _, ret VUndefined)
    [VString "one two"; VString "three"; VObject 11] store =
  JS.bind (forEach ["one"; "two"; "three"]%string record_module)
          (λ _, mockModules standard record_module (λ _ _, ret VUndefined)
                  [VObject 11]) store.
Proof.
  refine (mockModules_calls_each_piece standard record_module
            (λ _ _, ret VUndefined) ["one two"; "three"]%string
            [VObject 11] store _ _).
  - apply record_module_keeps_split.
  - evaluate.
Defined.

(** [mockModules('one two three')] and [mockModules('one two', 'three')] *)
Lemma mockModules_joined_arguments_witness :
  mockModules standard record_module (λ _ _, ret VUndefined)
    [VString "one two three"] store =
  mockModules standard record_module (λ _ _, ret VUndefined)
    [VString "one two"; VString "three"] store.
Proof.
  refine (mockModules_joined_arguments standard record_module
            (λ _ _, ret VUndefined) [] "one two" "three" [] store _ _).
  - apply record_module_keeps_split.
  - evaluate.
Defined.

(** [mockModules('one two', null, 'three')]: [one] and [two] are mocked,
    [three] is not. *)
Lemma mockModules_throws_after_mocking_witness :
  mockModules standard record_module (λ _ _, ret VUndefined)
    [VString "one two"; VNull; VString "three"] store =
  (Throw TypeError,
   <[22%positive := plain [("module"%string, VString "two")]]>
     (<[21%positive := plain [("module"%string, VString "one")]]> store)).
Proof.
  refine (mockModules_throws_after_mocking standard record_module
            (λ _ _, ret VUndefined) ["one two"]%string VNull
            [VString "three"] VUndefined store _ _ _ _ _).
  - apply record_module_keeps_split.
  - evaluate.
  - evaluate.
  - by right.
Defined.

End MoreConcrete.

(* ================================================================= *)
(** ** Calls that run no getter *)
(* ================================================================= *)

Section DataView.

Context (R : realm).

Variable code : loc → option (value → Getters.M value).

Lemma erase_lookup (h : Getters.heap) l :
  Getters.erase h !! l = Getters.erase_object <$> h !! l.
Proof. apply lookup_fmap. Qed.

Lemma erase_size (h : Getters.heap) : size (Getters.erase h) = size h.
Proof. apply map_size_fmap. Qed.

Lemma erase_mono (h h' : Getters.heap) :
  h ⊆ h' → Getters.erase h ⊆ Getters.erase h'.
Proof. apply map_fmap_mono. Qed.

Lemma assoc_erase p ps :
  assoc p (map Getters.erase_property ps) =
  option_map Getters.slot_value (Getters.assoc p ps).
Proof.
  induction ps as [|[q s] rest IH]; [done|].
  cbn. by destruct (String.eqb q p).
Qed.

(** The lookup in the data view is the lookup of the slot, read as data. *)
Lemma lookup_chain_erase fuel l p (h : Getters.heap) :
  lookup_chain fuel l p (Getters.erase h) =
  (r ← Getters.lookup_chain fuel l p h;
   Normal (option_map Getters.slot_value r)).
Proof.
  revert l. induction fuel as [|fuel IH]; intros l; [done|].
  cbn. unfold deref, Getters.deref. rewrite erase_lookup.
  destruct (h !! l) as [o|]; cbn; [|done].
  rewrite assoc_erase.
  destruct (Getters.assoc p (Getters.properties o)) as [s|]; cbn; [done|].
  destruct (Getters.prototype o); [apply IH | done].
Qed.

Lemma GetProperty_erase l p (h : Getters.heap) :
  GetProperty l p (Getters.erase h) =
  (r ← Getters.GetProperty l p h;
   Normal (option_map Getters.slot_value r)).
Proof.
  unfold GetProperty, Getters.GetProperty. rewrite erase_size.
  apply lookup_chain_erase.
Qed.

Lemma op_in_erase p v (h : Getters.heap) :
  op_in p v (Getters.erase h) = Getters.op_in p v h.
Proof.
  destruct v; try done. cbn. unfold HasProperty, Getters.HasProperty.
  rewrite GetProperty_erase.
  by destruct (Getters.GetProperty l p h) as [[s|]| |].
Qed.

Lemma typeof_erase v (h : Getters.heap) :
  typeof v (Getters.erase h) = Getters.typeof v h.
Proof.
  destruct v; try done. cbn. unfold deref, Getters.deref.
  rewrite erase_lookup. by destruct (h !! l).
Qed.

Lemma getOwnPropertyNames_erase v (h : Getters.heap) :
  getOwnPropertyNames v (Getters.erase h) = Getters.getOwnPropertyNames v h.
Proof.
  destruct v; try done. cbn. unfold deref, Getters.deref.
  rewrite erase_lookup. destruct (h !! l) as [o|]; cbn; [|done].
  by rewrite map_map.
Qed.

(** Reading a member that is absent or a data property runs no getter. *)
Lemma Get_data l p receiver (h : Getters.heap) r :
  Getters.GetProperty l p h = Normal r →
  (∀ getter, r ≠ Some (Getters.Accessor getter)) →
  Getters.Get code l p receiver h = (Get l p (Getters.erase h), h).
Proof.
  intros Hr Hdata. unfold Getters.Get, Getters.bind, Getters.read, Get.
  rewrite GetProperty_erase, Hr. cbn.
  destruct r as [[v|getter]|]; try done. by destruct (Hdata getter).
Qed.

Lemma split_intrinsic_erase (h : Getters.heap) :
  Getters.split_intrinsic R h → split_intrinsic R (Getters.erase h).
Proof.
  unfold Getters.split_intrinsic, split_intrinsic, Get. intros Hs.
  by rewrite GetProperty_erase, Hs.
Qed.

Lemma specification_erase entries spec (h : Getters.heap) :
  Getters.specification entries spec h →
  specification entries spec (Getters.erase h).
Proof.
  intros (ls & os & -> & Hl & Hp & Hnd).
  exists ls, (Getters.erase_object os). split; [done|].
  split; [by rewrite erase_lookup, Hl|]. split; [|done].
  cbn. rewrite Hp, map_map. reflexivity.
Qed.

Lemma call_split_data names (h : Getters.heap) :
  Getters.split_intrinsic R h →
  Getters.call_split R code (VString names) " " h =
  (Normal (split " " names), h).
Proof.
  intros Hs. unfold Getters.call_split, Getters.bind at 1, Getters.GetV.
  rewrite string_own_property_split.
  rewrite (Get_data _ _ _ h _ Hs) by done.
  rewrite (split_intrinsic_erase h Hs). by rewrite decide_True.
Qed.

Lemma for_properties_data object type properties (h : Getters.heap) :
  (∀ l, object = VObject l →
        Forall (λ p, Getters.data_member l p h) properties) →
  Getters.for_properties R code object type properties h =
  match check_members R object type properties (Getters.erase h) with
  | Normal None => (Normal None, h)
  | Normal (Some f) =>
      Getters.bind (Getters.new_Error R (describe f))
                   (λ e, Getters.ret (Some e)) h
  | Throw e => (Throw e, h)
  | Unmodelled => (Unmodelled, h)
  end.
Proof.
  induction properties as [|property rest IH]; intros Hdata; [reflexivity|].
  cbn [Getters.for_properties check_members]. unfold check_member.
  rewrite op_in_erase. unfold Getters.bind at 1, Getters.read at 1.
  destruct object as [| | | | | | |l]; try reflexivity.
  specialize (Hdata l eq_refl). apply Forall_cons in Hdata as [Hp Hrest].
  destruct Hp as (r & Hr & Hkind).
  cbn [Getters.op_in]. unfold Getters.HasProperty. rewrite Hr.
  destruct r as [[v|getter]|]; [|done|reflexivity].
  cbn [mbind completion_bind negb]. unfold Getters.bind at 1.
  cbn [Getters.GetV GetV]. rewrite (Get_data l property _ h _ Hr) by done.
  unfold Get. rewrite GetProperty_erase, Hr. cbn [mbind completion_bind option_map Getters.slot_value].
  rewrite typeof_erase. unfold Getters.bind at 1, Getters.read at 1.
  destruct Hkind as [t Ht]. rewrite Ht. cbn [mbind completion_bind].
  destruct (String.eqb t type); cbn [negb]; [|reflexivity].
  apply IH. by intros ? [= <-].
Qed.

End DataView.

Section WithoutGetters.

Context (R : realm).

Variable code : loc → option (value → Getters.M value).

Lemma GetV_entry entries ls os kind names (h : Getters.heap) :
  h !! ls = Some os →
  Getters.properties os = map Getters.entry_property entries →
  NoDup (map fst entries) → (kind, names) ∈ entries →
  Getters.GetV R code (VObject ls) kind h = (Normal (VString names), h).
Proof.
  intros Hl Hp Hnd Hin.
  assert (Getters.GetProperty ls kind h =
          Normal (Some (Getters.Data (VString names)))) as Hr.
  { unfold Getters.GetProperty.
    destruct (size h) as [|n] eqn:Hn.
    { apply map_size_empty_iff in Hn. subst h. by rewrite lookup_empty in Hl. }
    cbn. unfold Getters.deref. rewrite Hl. cbn. rewrite Hp.
    clear Hp Hl. induction entries as [|[k x] rest IH]; cbn.
    - by apply elem_of_nil in Hin.
    - apply NoDup_cons in Hnd as [Hk Hnd].
      apply elem_of_cons in Hin as [Heq|Hin].
      + injection Heq as <- <-. by rewrite String.eqb_refl.
      + destruct (String.eqb k kind) eqn:Hkk.
        * apply String.eqb_eq in Hkk. subst k. exfalso. apply Hk.
          apply list_elem_of_fmap. by exists (kind, names).
        * destruct (Getters.assoc kind (map Getters.entry_property rest))
            eqn:Ha; by apply IH. }
  cbn [Getters.GetV]. rewrite (Get_data code ls kind _ h _ Hr) by done.
  unfold Get. by rewrite GetProperty_erase, Hr.
Qed.

Lemma for_types_data object ls es (h : Getters.heap) :
  Getters.split_intrinsic R h →
  (∀ kind names, (kind, names) ∈ es →
     Getters.GetV R code (VObject ls) kind h = (Normal (VString names), h) ∧
     GetV R (VObject ls) kind (Getters.erase h) = Normal (VString names)) →
  (∀ l, object = VObject l →
        Forall (λ pair, Getters.data_member l pair.2 h) (pairs es)) →
  Getters.for_types R code object (VObject ls) (map fst es) h =
  match check_kinds R object (VObject ls) (map fst es) (Getters.erase h) with
  | Normal None => (Normal None, h)
  | Normal (Some f) =>
      Getters.bind (Getters.new_Error R (describe f))
                   (λ e, Getters.ret (Some e)) h
  | Throw e => (Throw e, h)
  | Unmodelled => (Unmodelled, h)
  end.
Proof.
  intros Hs. induction es as [|[kind names] rest IH]; intros Hget Hdata;
    [reflexivity|].
  cbn [map fst Getters.for_types check_kinds].
  destruct (Hget kind names) as [HgetA HgetJ]; [apply list_elem_of_here|].
  unfold Getters.bind at 1. rewrite HgetA, HgetJ, bind_Normal.
  unfold Getters.bind at 1. rewrite call_split_data by done.
  rewrite call_split_string by by apply split_intrinsic_erase.
  rewrite bind_Normal. unfold Getters.bind at 1.
  rewrite for_properties_data.
  - destruct (check_members R object kind (split " " names) (Getters.erase h))
      as [[f|]| |]; try reflexivity.
    apply IH.
    + intros k n Hin. apply Hget. by apply list_elem_of_further.
    + intros l Hl. specialize (Hdata l Hl). unfold pairs in Hdata.
      cbn [flat_map] in Hdata. by apply Forall_app in Hdata as [_ ?].
  - intros l Hl. specialize (Hdata l Hl). unfold pairs in Hdata.
    cbn [flat_map fst snd] in Hdata. apply Forall_app in Hdata as [Hm _].
    rewrite Forall_forall in Hm. apply Forall_forall. intros p Hp.
    apply (Hm (kind, p)). apply list_elem_of_fmap. by exists p.
Qed.

(** On a specification of strings and a subject whose named members are
    data members, [looksLike] is the verdict of [check] on the data view,
    reported. *)
Lemma looksLike_data subject spec entries (h : Getters.heap) :
  Getters.split_intrinsic R h → Getters.specification entries spec h →
  Getters.data_members subject entries h →
  Getters.looksLike R code subject spec h =
  Getters.report R (check R subject spec (Getters.erase h)) h.
Proof.
  intros Hs (ls & os & -> & Hl & Hp & Hnd) Hdata.
  unfold Getters.looksLike, check, Getters.bind at 1 2, Getters.read.
  rewrite getOwnPropertyNames_erase. cbn [Getters.getOwnPropertyNames].
  unfold Getters.deref. rewrite Hl. cbn [mbind completion_bind].
  rewrite Hp.
  replace (map fst (map Getters.entry_property entries)) with (map fst entries)
    by (rewrite map_map; reflexivity).
  rewrite (for_types_data subject ls entries h Hs).
  - by destruct (check_kinds R subject (VObject ls) (map fst entries)
                   (Getters.erase h)) as [[f|]| |].
  - intros kind names Hin. split.
    + by eapply GetV_entry.
    + cbn. apply (Get_own (Getters.erase h) ls (Getters.erase_object os)).
      * by rewrite erase_lookup, Hl.
      * cbn. rewrite Hp, map_map. by apply assoc_entries.
  - exact Hdata.
Qed.

(** Such a call has a verdict. *)
Lemma first_failure_data subject ps (h : Getters.heap) :
  (∀ l, subject = VObject l →
        Forall (λ pair, Getters.data_member l pair.2 h) ps) →
  first_failure R subject ps (Getters.erase h) ≠ Unmodelled.
Proof.
  induction ps as [|[kind member] rest IH]; intros Hdata; [done|].
  cbn. unfold check_member. rewrite op_in_erase.
  destruct subject as [| | | | | | |l]; try done.
  specialize (Hdata l eq_refl). apply Forall_cons in Hdata as [Hp Hrest].
  destruct Hp as (r & Hr & Hkind). cbn in Hr.
  cbn [Getters.op_in GetV]. unfold Getters.HasProperty, Get.
  rewrite GetProperty_erase, Hr.
  destruct r as [[v|getter]|]; [|done|done].
  cbn. rewrite typeof_erase. destruct Hkind as [t ->]. cbn.
  destruct (String.eqb t kind); [|done].
  apply IH. by intros ? [= <-].
Qed.

Lemma check_data subject spec entries (h : Getters.heap) :
  Getters.split_intrinsic R h → Getters.specification entries spec h →
  Getters.data_members subject entries h →
  check R subject spec (Getters.erase h) ≠ Unmodelled.
Proof.
  intros Hs Hspec Hdata.
  rewrite (check_specification R _ _ entries);
    [by apply first_failure_data | by apply split_intrinsic_erase
     | by apply specification_erase].
Qed.

Lemma getters_lookup_chain_mono (h h' : Getters.heap) p fuel fuel' l r :
  h ⊆ h' → fuel ≤ fuel' → Getters.lookup_chain fuel l p h = Normal r →
  Getters.lookup_chain fuel' l p h' = Normal r.
Proof.
  intros Hsub. revert fuel' l.
  induction fuel as [|fuel IH]; intros [|fuel'] l Hle Hr;
    cbn in *; try done; try lia.
  unfold Getters.deref in *. destruct (h !! l) as [o|] eqn:Hl; [|done].
  rewrite (lookup_weaken _ _ _ _ Hl Hsub). cbn in *.
  destruct (Getters.assoc p (Getters.properties o)); [done|].
  destruct (Getters.prototype o); [|done]. apply IH; [lia | done].
Qed.

Lemma getters_GetProperty_mono (h h' : Getters.heap) l p r :
  h ⊆ h' → Getters.GetProperty l p h = Normal r →
  Getters.GetProperty l p h' = Normal r.
Proof.
  intros Hsub. apply getters_lookup_chain_mono; [done|].
  by apply map_subseteq_size.
Qed.

Lemma getters_typeof_mono (h h' : Getters.heap) v t :
  h ⊆ h' → Getters.typeof v h = Normal t → Getters.typeof v h' = Normal t.
Proof.
  intros Hsub. destruct v; try done. cbn. unfold Getters.deref.
  destruct (h !! l) as [o|] eqn:Hl; [|done].
  by rewrite (lookup_weaken _ _ _ _ Hl Hsub).
Qed.

(** The three conditions still hold after the heap has grown. *)
Lemma conditions_mono subject spec entries (h h' : Getters.heap) :
  h ⊆ h' →
  Getters.split_intrinsic R h → Getters.specification entries spec h →
  Getters.data_members subject entries h →
  Getters.split_intrinsic R h' ∧ Getters.specification entries spec h' ∧
  Getters.data_members subject entries h'.
Proof.
  intros Hsub Hs (ls & os & -> & Hl & Hp & Hnd) Hdata. split; [|split].
  - by eapply getters_GetProperty_mono.
  - exists ls, os. repeat split; try done. by eapply lookup_weaken.
  - intros l Hl'. specialize (Hdata l Hl'). eapply Forall_impl; [exact Hdata|].
    intros pair (r & Hr & Hkind). exists r.
    split; [by eapply getters_GetProperty_mono|].
    destruct r as [[v|getter]|]; try done.
    destruct Hkind as [t Ht]. exists t. by eapply getters_typeof_mono.
Qed.

Lemma getters_fresh_lookup (h : Getters.heap) : h !! fresh (dom h) = None.
Proof. apply not_elem_of_dom, is_fresh. Qed.

Lemma getters_alloc_subseteq (h : Getters.heap) o :
  h ⊆ <[fresh (dom h) := o]> h.
Proof. apply insert_subseteq, getters_fresh_lookup. Qed.

Lemma getters_report_heap c (h : Getters.heap) :
  (Getters.report R c h).2 = h ∨
  ∃ f, c = Normal (Some f) ∧
       Getters.report R c h =
       (Normal (VObject (fresh (dom h))),
        <[fresh (dom h) := Getters.Error_object R (describe f)]> h).
Proof.
  destruct c as [[f|]| |]; cbn; auto. right. by exists f.
Qed.

Lemma getters_result_of_report c (h : Getters.heap) :
  Getters.result_of (Getters.report R c h) =
  match c with
  | Normal None => Normal (inl VUndefined)
  | Normal (Some f) => Normal (inr (Getters.Error_object R (describe f)))
  | Throw e => Throw e
  | Unmodelled => Unmodelled
  end.
Proof.
  destruct c as [[f|]| |]; try reflexivity.
  unfold Getters.result_of, Getters.content. cbn. by rewrite lookup_insert_eq.
Qed.

(** The call adds at most the [Error] it returns. *)
Lemma looksLike_data_grows subject spec entries (h : Getters.heap) :
  Getters.split_intrinsic R h → Getters.specification entries spec h →
  Getters.data_members subject entries h →
  h ⊆ (Getters.looksLike R code subject spec h).2.
Proof.
  intros Hs Hspec Hdata. rewrite (looksLike_data _ _ entries) by done.
  destruct (getters_report_heap (check R subject spec (Getters.erase h)) h)
    as [->|(f & _ & ->)]; [done | apply getters_alloc_subseteq].
Qed.

(** In a larger heap the verdict is the same. *)
Lemma check_data_stable subject spec entries (h h' : Getters.heap) :
  h ⊆ h' →
  Getters.split_intrinsic R h → Getters.specification entries spec h →
  Getters.data_members subject entries h →
  check R subject spec (Getters.erase h') = check R subject spec (Getters.erase h).
Proof.
  intros Hsub Hs Hspec Hdata.
  apply check_stable; [by apply erase_mono | by eapply check_data].
Qed.

End WithoutGetters.

(* ================================================================= *)
(** ** Determinism and side effects *)
(* ================================================================= *)

Section Getting.

Context (R : realm).

Variable code : loc → option (value → Getters.M value).

(** C8, as amended.  When the specification is an object whose entries
    are strings and the members it names are, on the subject, absent or
    data properties (no getter runs during the call), [looksLike] is
    deterministic: a second call on the same subject and specification,
    made in the heap the first call left, reaches the same verdict (both
    pass, or the same failure of the same member and kind, or the same
    exception), and what is observed of the two results is equal:
    [undefined] twice, or two [Error] objects with the same message. *)
Theorem looksLike_deterministic_without_getters
    subject spec entries (h : Getters.heap) c1 h1 c2 h2 :
  Getters.split_intrinsic R h → Getters.specification entries spec h →
  Getters.data_members subject entries h →
  Getters.looksLike R code subject spec h = (c1, h1) →
  Getters.looksLike R code subject spec h1 = (c2, h2) →
  (∃ verdict, verdict ≠ Unmodelled ∧
              (c1, h1) = Getters.report R verdict h ∧
              (c2, h2) = Getters.report R verdict h1) ∧
  Getters.result_of (c2, h2) = Getters.result_of (c1, h1) ∧
  Getters.result_of (c1, h2) = Getters.result_of (c1, h1).
Proof.
  intros Hs Hspec Hdata H1 H2.
  pose proof (looksLike_data_grows R code subject spec entries h Hs Hspec Hdata)
    as Hsub.
  rewrite H1 in Hsub. cbn in Hsub.
  destruct (conditions_mono R subject spec entries h h1 Hsub Hs Hspec Hdata)
    as (Hs1 & Hspec1 & Hdata1).
  rewrite (looksLike_data R code _ _ entries) in H1 by done.
  rewrite (looksLike_data R code _ _ entries) in H2 by done.
  rewrite (check_data_stable R subject spec entries h h1) in H2 by done.
  split; [|split].
  - exists (check R subject spec (Getters.erase h)).
    split; [by eapply check_data | done].
  - by rewrite <- H1, <- H2, !getters_result_of_report.
  - destruct (getters_report_heap R (check R subject spec (Getters.erase h)) h1)
      as [Hh|(f & Hc & Hr)].
    + rewrite H2 in Hh. cbn in Hh. by subst h2.
    + rewrite Hc in H1. cbn in H1. injection H1 as <- <-.
      rewrite H2 in Hr. injection Hr as Hc2 ->.
      unfold Getters.result_of, Getters.content. cbn.
      rewrite lookup_insert_ne, !lookup_insert_eq; [done|].
      intros Heq. pose proof (getters_fresh_lookup (<[fresh (dom h) :=
        Getters.Error_object R (describe f)]> h)) as Hnone.
      by rewrite Heq, lookup_insert_eq in Hnone.
Qed.

(** C9, as amended.  When the specification is an object whose entries
    are strings and the members it names are, on the subject, absent or
    data properties (no getter runs during the call), [looksLike] has no
    side effects.  Every object of the heap before the call, the subject
    and the specification among them, is the same after it; the only
    object the call may add is the fresh [Error] it returns; and the result
    depends on the two inputs only: in any larger heap the call has the
    same observable result. *)
Theorem looksLike_no_side_effects_without_getters
    subject spec entries (h h2 : Getters.heap) :
  Getters.split_intrinsic R h → Getters.specification entries spec h →
  Getters.data_members subject entries h →
  h ⊆ h2 →
  h ⊆ (Getters.looksLike R code subject spec h).2 ∧
  (∀ l, l ∈ dom (Getters.looksLike R code subject spec h).2 → l ∉ dom h →
        (Getters.looksLike R code subject spec h).1 = Normal (VObject l)) ∧
  (Getters.looksLike R code subject spec h).1 ≠ Unmodelled ∧
  Getters.result_of (Getters.looksLike R code subject spec h2) =
  Getters.result_of (Getters.looksLike R code subject spec h).
Proof.
  intros Hs Hspec Hdata Hsub.
  destruct (conditions_mono R subject spec entries h h2 Hsub Hs Hspec Hdata)
    as (Hs2 & Hspec2 & Hdata2).
  pose proof (check_data R subject spec entries h Hs Hspec Hdata) as Hdef.
  rewrite !(looksLike_data R code _ _ entries) by done.
  split; [|split; [|split]].
  - destruct (getters_report_heap R (check R subject spec (Getters.erase h)) h)
      as [->|(f & _ & ->)]; [done | apply getters_alloc_subseteq].
  - intros l.
    destruct (getters_report_heap R (check R subject spec (Getters.erase h)) h)
      as [->|(f & _ & ->)]; [done|].
    cbn. rewrite dom_insert.
    intros [Hl%elem_of_singleton|Hl]%elem_of_union Hnew; [by subst l | done].
  - by destruct (check R subject spec (Getters.erase h)) as [[f|]| |].
  - by rewrite !getters_result_of_report,
      (check_data_stable R subject spec entries h h2).
Qed.

End Getting.

Section GettingConcrete.

Import Scenarios.

Ltac evaluate := vm_compute; reflexivity.

Ltac decided :=
  lazymatch goal with
  | |- ?P => apply (bool_decide_unpack P); vm_compute; exact I
  end.

Ltac is_getters_specification l o :=
  exists l, o;
  split; [reflexivity|];
  split; [evaluate|];
  split; [reflexivity | decided].

Ltac has_data_members r t :=
  intros l [= <-];
  apply Forall_cons_2; [|apply Forall_nil_2];
  exists r; split; [evaluate | exists t; evaluate].

(** C8, the claim as stated fails: with the subject [fickle], whose getter
    [foo] answers [f] the first time it is read and [1] afterwards, the
    first call passes and leaves [fickle] and the specification as they
    were, and the second call, on the same subject and specification,
    returns an [Error]. *)
Lemma looksLike_differs_with_a_getter :
  Getters.result_of
    (Getters.looksLike standard GetterScenarios.code (VObject 31) (VObject 16)
       GetterScenarios.store) = Normal (inl VUndefined) ∧
  (Getters.looksLike standard GetterScenarios.code (VObject 31) (VObject 16)
     GetterScenarios.store).2 !! 31%positive =
  GetterScenarios.store !! 31%positive ∧
  (Getters.looksLike standard GetterScenarios.code (VObject 31) (VObject 16)
     GetterScenarios.store).2 !! 16%positive =
  GetterScenarios.store !! 16%positive ∧
  Getters.result_of
    (Getters.looksLike standard GetterScenarios.code (VObject 31) (VObject 16)
       (Getters.looksLike standard GetterScenarios.code (VObject 31)
          (VObject 16) GetterScenarios.store).2) =
  Normal (inr (Getters.Error_object standard
                 "Expected property 'foo' to be of type function.")).
Proof. repeat split; evaluate. Qed.

(** C9, the claim as stated fails: with the subject [marking], whose getter
    [foo] sets [this.touched], the call passes and the subject has a member
    more than before. *)
Lemma looksLike_getter_changes_the_subject :
  (Getters.looksLike standard GetterScenarios.code (VObject 34) (VObject 16)
     GetterScenarios.store).1 = Normal VUndefined ∧
  GetterScenarios.store !! 34%positive =
  Some (GetterScenarios.plain
          [("foo"%string, Getters.Accessor (VObject 35))]) ∧
  (Getters.looksLike standard GetterScenarios.code (VObject 34) (VObject 16)
     GetterScenarios.store).2 !! 34%positive =
  Some (GetterScenarios.plain
          [("foo"%string, Getters.Accessor (VObject 35));
           ("touched"%string, Getters.Data (VBoolean true))]).
Proof. repeat split; evaluate. Qed.

(** Two calls in a row on [{foo: 1}] and [{"function": "foo"}], in a heap
    that also holds [fickle] and [marking]: two [Error] objects, at 36 and
    at 37, with one message. *)
Lemma looksLike_deterministic_without_getters_witness :
  Getters.result_of
    (Normal (VObject 37),
     <[37%positive := Getters.Error_object standard
         "Expected property 'foo' to be of type function."]>
       (<[36%positive := Getters.Error_object standard
            "Expected property 'foo' to be of type function."]>
          GetterScenarios.store)) =
  Getters.result_of
    (Normal (VObject 36),
     <[36%positive := Getters.Error_object standard
         "Expected property 'foo' to be of type function."]>
       GetterScenarios.store).
Proof.
  refine (proj1 (proj2 (looksLike_deterministic_without_getters standard
            GetterScenarios.code (VObject 13) (VObject 16)
            [("function", "foo")]%string GetterScenarios.store
            _ _ _ _ _ _ _ _ _))).
  - evaluate.
  - is_getters_specification 16%positive
      (GetterScenarios.plain
         [("function"%string, Getters.Data (VString "foo"))]).
  - has_data_members (Some (Getters.Data (VNumber 1))) "number"%string.
  - evaluate.
  - evaluate.
Defined.

(** The call in the heap and in the heap with one more object. *)
Lemma looksLike_no_side_effects_without_getters_witness :
  GetterScenarios.store ⊆
  (Getters.looksLike standard GetterScenarios.code (VObject 13) (VObject 16)
     GetterScenarios.store).2 ∧
  Getters.result_of
    (Getters.looksLike standard GetterScenarios.code (VObject 13) (VObject 16)
       (<[40%positive := GetterScenarios.plain []]> GetterScenarios.store)) =
  Getters.result_of
    (Getters.looksLike standard GetterScenarios.code (VObject 13) (VObject 16)
       GetterScenarios.store).
Proof.
  destruct (looksLike_no_side_effects_without_getters standard
              GetterScenarios.code (VObject 13) (VObject 16)
              [("function", "foo")]%string GetterScenarios.store
              (<[40%positive := GetterScenarios.plain []]> GetterScenarios.store))
    as (Hkept & _ & _ & Hsame).
  - evaluate.
  - is_getters_specification 16%positive
      (GetterScenarios.plain
         [("function"%string, Getters.Data (VString "foo"))]).
  - has_data_members (Some (Getters.Data (VNumber 1))) "number"%string.
  - apply insert_subseteq. evaluate.
  - split; [exact Hkept | exact Hsame].
Defined.

End GettingConcrete.
